(** * real_estate_manager.py: search, matching and mortgage calculation

    A shallow embedding of [RealEstateManagementSystem] and of the part of
    [RealEstateApp.search_properties_interactive] that computes its result
    list.  Python values are modelled as they behave at run time: [float] is
    IEEE binary64 (the kernel's primitive floats), [int] is unbounded ([Z]),
    [dict] keeps insertion order, and an operation that raises does so in the
    [pyresult] monad. *)

From Stdlib Require Import ZArith List String Ascii Bool Lia.
From Stdlib Require Import PrimFloat FloatOps FloatAxioms SpecFloat.
From Stdlib Require Import Sorted Permutation.
From Stdlib Require Import DecimalString DecimalNat.
From stdpp Require Import base option list gmap strings.

Import ListNotations.
Set Warnings "-register-all".
Local Open Scope string_scope.
Local Open Scope Z_scope.

(* ===================================================================== *)
(** ** Exceptions and results *)

(** The built-in exceptions the modelled code can raise.  The program defines
    no exception class of its own and contains no [raise] statement. *)
Inductive exn : Set :=
| ZeroDivisionError
| OverflowError
| TypeError
| AttributeError
| KeyError
| IndexError
| ValueError.

Inductive pyresult (A : Type) : Type :=
| Return (a : A)
| Raise (e : exn).
Arguments Return {A} a.
Arguments Raise {A} e.

Definition bind {A B} (m : pyresult A) (k : A -> pyresult B) : pyresult B :=
  match m with
  | Return a => k a
  | Raise e => Raise e
  end.

Notation "'do' x <- m ; k" := (bind m (fun x => k))
  (at level 10, x name, m at level 100, k at level 200,
   format "'[v' 'do'  x  <-  m ; '/' k ']'").

Definition returns {A} (m : pyresult A) : Prop := exists a, m = Return a.

(** [for x in xs: acc = body(acc, x)], where the body may raise. *)
Fixpoint for_each {A S} (body : S -> A -> pyresult S) (xs : list A) (acc : S)
  : pyresult S :=
  match xs with
  | [] => Return acc
  | x :: xs' => do acc' <- body acc x; for_each body xs' acc'
  end.

(* ===================================================================== *)
(** ** Numbers *)

(** The literal [1.1], that is the double 0x1.199999999999ap+0. *)
Definition float_1_1 : float := 0x1.199999999999ap+0%float.

(** [float(z)] for an [int]: round to nearest even, [OverflowError] when the
    integer is too large for a double. *)
Definition float_of_int (z : Z) : pyresult float :=
  let f := SF2Prim (binary_normalize prec emax z 0 false) in
  if is_infinity f then Raise OverflowError else Return f.

(** [a / b] on floats raises on a zero divisor (of either sign). *)
Definition float_truediv (a b : float) : pyresult float :=
  if (b =? 0)%float then Raise ZeroDivisionError else Return (a / b)%float.

(** Python compares an [int] with a [float] by their exact values.  A finite
    double is [(-1)^s * m * 2^e]; [None] is the unordered case (NaN). *)
Definition SF_compare_Z (f : spec_float) (z : Z) : option comparison :=
  match f with
  | S754_nan => None
  | S754_infinity s => Some (if s then Lt else Gt)
  | S754_zero _ => Some (0 ?= z)
  | S754_finite s m e =>
      let v := if s then Z.neg m else Z.pos m in
      Some (if 0 <=? e then v * 2 ^ e ?= z else v ?= z * 2 ^ (- e))
  end.

Definition float_compare_int (f : float) (z : Z) : option comparison :=
  SF_compare_Z (Prim2SF f) z.

(** A value of type [int] or [float]. *)
Inductive pynum : Set :=
| NInt (z : Z)
| NFloat (f : float).

(** [a <= b] *)
Definition num_le (a b : pynum) : bool :=
  match a, b with
  | NInt x, NInt y => x <=? y
  | NFloat x, NFloat y => (x <=? y)%float
  | NInt x, NFloat y =>
      match float_compare_int y x with Some Gt | Some Eq => true | _ => false end
  | NFloat x, NInt y =>
      match float_compare_int x y with Some Lt | Some Eq => true | _ => false end
  end.

(** [a == b] *)
Definition num_eq (a b : pynum) : bool :=
  match a, b with
  | NInt x, NInt y => x =? y
  | NFloat x, NFloat y => (x =? y)%float
  | NInt x, NFloat y =>
      match float_compare_int y x with Some Eq => true | _ => false end
  | NFloat x, NInt y =>
      match float_compare_int x y with Some Eq => true | _ => false end
  end.

(* ===================================================================== *)
(** ** Strings *)

(** A [str] is modelled as a sequence of code points below 256 (Latin-1).
    On these [str.lower] maps A-Z and the accented capitals 0xC0-0xDE (the
    multiplication sign 0xD7 apart) to the code point 32 above, and leaves
    every other code point alone. *)
Definition lower_char (c : ascii) : ascii :=
  let n := N_of_ascii c in
  if (((65 <=? n) && (n <=? 90))
      || ((192 <=? n) && (n <=? 222) && negb (n =? 215)))%N
  then ascii_of_N (n + 32)
  else c.

Fixpoint lower (s : string) : string :=
  match s with
  | EmptyString => EmptyString
  | String c s' => String (lower_char c) (lower s')
  end.

(** [needle in hay] for two strings: [needle] occurs at some offset. *)
Fixpoint str_contains (needle hay : string) : bool :=
  String.prefix needle hay
  || match hay with
     | EmptyString => false
     | String _ hay' => str_contains needle hay'
     end.

(* ===================================================================== *)
(** ** Enumerations and run-time values *)

Inductive PropertyType : Set := RESIDENTIAL | COMMERCIAL | LAND | INDUSTRIAL.
Inductive PropertyStatus : Set := FOR_SALE | FOR_RENT | SOLD | RENTED | PENDING.
Inductive ClientType : Set := BUYER | SELLER | TENANT | LANDLORD.

(** The [.value] of each member. *)
Definition PropertyType_value (t : PropertyType) : string :=
  match t with
  | RESIDENTIAL => "Residential"
  | COMMERCIAL => "Commercial"
  | LAND => "Land"
  | INDUSTRIAL => "Industrial"
  end.

Definition PropertyStatus_value (s : PropertyStatus) : string :=
  match s with
  | FOR_SALE => "For Sale"
  | FOR_RENT => "For Rent"
  | SOLD => "Sold"
  | RENTED => "Rented"
  | PENDING => "Pending"
  end.

Definition ClientType_value (c : ClientType) : string :=
  match c with
  | BUYER => "Buyer"
  | SELLER => "Seller"
  | TENANT => "Tenant"
  | LANDLORD => "Landlord"
  end.

Definition PropertyType_eqb (a b : PropertyType) : bool :=
  match a, b with
  | RESIDENTIAL, RESIDENTIAL | COMMERCIAL, COMMERCIAL
  | LAND, LAND | INDUSTRIAL, INDUSTRIAL => true
  | _, _ => false
  end.

Definition PropertyStatus_eqb (a b : PropertyStatus) : bool :=
  match a, b with
  | FOR_SALE, FOR_SALE | FOR_RENT, FOR_RENT | SOLD, SOLD
  | RENTED, RENTED | PENDING, PENDING => true
  | _, _ => false
  end.

Definition ClientType_eqb (a b : ClientType) : bool :=
  match a, b with
  | BUYER, BUYER | SELLER, SELLER | TENANT, TENANT | LANDLORD, LANDLORD => true
  | _, _ => false
  end.

(** The values that reach the modelled code as keyword arguments, as
    preference entries (decoded from JSON) and as attributes of a record.
    (A JSON object among the preferences would be one more kind of value that
    is neither a number nor a string; it is not modelled.) *)
Inductive pyval : Type :=
| VNone
| VBool (b : bool)
| VInt (z : Z)
| VFloat (f : float)
| VStr (s : string)
| VList (l : list pyval)
| VTuple (l : list pyval)
| VPropertyType (t : PropertyType)
| VPropertyStatus (s : PropertyStatus)
| VClientType (c : ClientType).

(** The numeric reading of a value; [bool] is a subclass of [int]. *)
Definition as_num (v : pyval) : option pynum :=
  match v with
  | VBool b => Some (NInt (if b then 1 else 0))
  | VInt z => Some (NInt z)
  | VFloat f => Some (NFloat f)
  | _ => None
  end.

(** [a == b].  Numbers compare by value across [bool], [int] and [float];
    strings by content; lists and tuples element by element, each with its
    own kind; an enum member equals only itself; everything else is unequal.
    (Inside a list Python first tests identity, so a list holding a NaN may
    equal itself; values here carry no identity.) *)
Fixpoint py_eq (a b : pyval) {struct a} : bool :=
  let fix all_eq (xs ys : list pyval) {struct xs} : bool :=
    match xs, ys with
    | [], [] => true
    | x :: xs', y :: ys' => py_eq x y && all_eq xs' ys'
    | _, _ => false
    end in
  match a, b with
  | VNone, VNone => true
  | VStr s, VStr t => String.eqb s t
  | VList xs, VList ys => all_eq xs ys
  | VTuple xs, VTuple ys => all_eq xs ys
  | VPropertyType s, VPropertyType t => PropertyType_eqb s t
  | VPropertyStatus s, VPropertyStatus t => PropertyStatus_eqb s t
  | VClientType s, VClientType t => ClientType_eqb s t
  | _, _ =>
      match as_num a, as_num b with
      | Some x, Some y => num_eq x y
      | _, _ => false
      end
  end.

(** [n <= v] and [n >= v] for a number [n] and an arbitrary value: ordering a
    number against anything but a number is a [TypeError]. *)
Definition num_le_val (n : pynum) (v : pyval) : pyresult bool :=
  match as_num v with
  | Some m => Return (num_le n m)
  | None => Raise TypeError
  end.

Definition num_ge_val (n : pynum) (v : pyval) : pyresult bool :=
  match as_num v with
  | Some m => Return (num_le m n)
  | None => Raise TypeError
  end.

Definition val_le_num (v : pyval) (n : pynum) : pyresult bool :=
  match as_num v with
  | Some m => Return (num_le m n)
  | None => Raise TypeError
  end.

(** [v.lower()]: only a [str] has the method. *)
Definition val_lower (v : pyval) : pyresult string :=
  match v with
  | VStr s => Return (lower s)
  | _ => Raise AttributeError
  end.

(* ===================================================================== *)
(** ** Dictionaries in insertion order *)

Module Dict.
(** A [dict] with [str] keys whose iteration order matters: the entries in
    insertion order, each key at most once. *)
Definition t (V : Type) : Type := list (string * V).

Definition values {V} (d : t V) : list V := map snd d.
Definition keys {V} (d : t V) : list string := map fst d.

(** [d.get(k)] *)
Fixpoint get {V} (k : string) (d : t V) : option V :=
  match d with
  | [] => None
  | (k', v) :: d' => if String.eqb k k' then Some v else get k d'
  end.

(** [k in d] *)
Definition contains {V} (k : string) (d : t V) : bool :=
  match get k d with Some _ => true | None => false end.

(** [d[k]] *)
Definition getitem {V} (k : string) (d : t V) : pyresult V :=
  match get k d with Some v => Return v | None => Raise KeyError end.

(** [d[k] = v]: an existing key keeps its position, a new one goes last. *)
Fixpoint setitem {V} (k : string) (v : V) (d : t V) : t V :=
  match d with
  | [] => [(k, v)]
  | (k', v') :: d' =>
      if String.eqb k k' then (k', v) :: d' else (k', v') :: setitem k v d'
  end.
End Dict.

(* ===================================================================== *)
(** ** The dataclasses *)

Record Property : Type := {
  property_id : string;
  address : string;
  city : string;
  state : string;
  zip_code : string;
  property_type : PropertyType;
  status : PropertyStatus;
  price : float;
  bedrooms : Z;
  bathrooms : float;
  square_feet : Z;
  year_built : Z;
  description : string;
  listing_date : string;
  features : list string;
  agent_id : option string
}.

Record Client : Type := {
  client_id : string;
  first_name : string;
  last_name : string;
  email : string;
  phone : string;
  client_type : ClientType;
  budget : float;
  preferences : gmap string pyval;
  interested_properties : list string;
  notes : string
}.

(** [prop.status = s] *)
Definition set_status (s : PropertyStatus) (p : Property) : Property :=
  {| property_id := property_id p; address := address p; city := city p;
     state := state p; zip_code := zip_code p;
     property_type := property_type p; status := s; price := price p;
     bedrooms := bedrooms p; bathrooms := bathrooms p;
     square_feet := square_feet p; year_built := year_built p;
     description := description p; listing_date := listing_date p;
     features := features p; agent_id := agent_id p |}.

(** [getattr(prop, name)] over the fields of the dataclass; [None] is
    [hasattr(prop, name) == False].  Names are taken not to begin with an
    underscore: the special attributes every Python object carries (such as
    [__class__]) are left out of the model. *)
Definition Property_getattr (p : Property) (name : string) : option pyval :=
  if String.eqb name "property_id" then Some (VStr (property_id p))
  else if String.eqb name "address" then Some (VStr (address p))
  else if String.eqb name "city" then Some (VStr (city p))
  else if String.eqb name "state" then Some (VStr (state p))
  else if String.eqb name "zip_code" then Some (VStr (zip_code p))
  else if String.eqb name "property_type" then Some (VPropertyType (property_type p))
  else if String.eqb name "status" then Some (VPropertyStatus (status p))
  else if String.eqb name "price" then Some (VFloat (price p))
  else if String.eqb name "bedrooms" then Some (VInt (bedrooms p))
  else if String.eqb name "bathrooms" then Some (VFloat (bathrooms p))
  else if String.eqb name "square_feet" then Some (VInt (square_feet p))
  else if String.eqb name "year_built" then Some (VInt (year_built p))
  else if String.eqb name "description" then Some (VStr (description p))
  else if String.eqb name "listing_date" then Some (VStr (listing_date p))
  else if String.eqb name "features" then Some (VList (map VStr (features p)))
  else if String.eqb name "agent_id" then
    Some (match agent_id p with Some a => VStr a | None => VNone end)
  else None.

(** The state of a [RealEstateManagementSystem].  [agents] and
    [transactions] are created empty and never touched by any method, so
    they carry no information. *)
Record System : Type := {
  data_dir : string;
  properties : Dict.t Property;
  clients : Dict.t Client
}.

(* ===================================================================== *)
(** ** [search_properties] *)

(** [prop_value.value] when the attribute is a [PropertyType] or a
    [PropertyStatus]; any other value is kept. *)
Definition unwrap_enum (v : pyval) : pyval :=
  match v with
  | VPropertyType t => VStr (PropertyType_value t)
  | VPropertyStatus s => VStr (PropertyStatus_value s)
  | _ => v
  end.

(** The body of the loop over [criteria.items()] for one pair: [false] is
    [match = False; break].  A key the record has no attribute for takes
    neither branch. *)
Definition criterion_holds (prop : Property) (key : string) (value : pyval)
  : bool :=
  match Property_getattr prop key with
  | Some prop_value =>
      match value, unwrap_enum prop_value with
      | VStr v, VStr pv => str_contains (lower v) (lower pv)
      | _, pv => py_eq value pv
      end
  | None => true
  end.

(** The inner loop: [match] after all criteria, with the early [break]. *)
Fixpoint criteria_match (prop : Property) (criteria : Dict.t pyval) : bool :=
  match criteria with
  | [] => true
  | (key, value) :: rest =>
      if criterion_holds prop key value then criteria_match prop rest
      else false
  end.

(** [results] collects, in iteration order, the records whose [match]
    stayed true. *)
Definition search_properties (self : System) (criteria : Dict.t pyval)
  : list Property :=
  List.filter (fun prop => criteria_match prop criteria)
              (Dict.values (properties self)).

(* ===================================================================== *)
(** ** [update_property_status] *)

(** What a method does besides returning: the lines it prints and the
    snapshots [save_data] writes under [data_dir].  (A failure of the file
    system inside [save_data] is outside the model.) *)
Inductive event : Type :=
| Printed (line : string)
| Saved (snapshot : System).

Record outcome (A : Type) : Type := {
  result : pyresult A;
  final : System;
  trace : list event
}.
Arguments result {A} o.
Arguments final {A} o.
Arguments trace {A} o.

Definition with_properties (self : System) (d : Dict.t Property) : System :=
  {| data_dir := data_dir self; properties := d; clients := clients self |}.

(** [load_data] and [add_property] build one object per key, so assigning
    the attribute of the object under [property_id] is replacing that entry
    by the same record with the new status. *)
Definition update_property_status
    (self : System) (property_id : string) (new_status : PropertyStatus)
  : outcome unit :=
  if Dict.contains property_id (properties self) then
    match Dict.getitem property_id (properties self) with
    | Return prop =>
        let self' :=
          with_properties self
            (Dict.setitem property_id (set_status new_status prop)
                          (properties self)) in
        {| result := Return tt;
           final := self';
           trace := [Saved self';
                     Printed ("Property " ++ property_id
                              ++ " status updated to "
                              ++ PropertyStatus_value new_status)] |}
    | Raise e => {| result := Raise e; final := self; trace := [] |}
    end
  else
    {| result := Return tt;
       final := self;
       trace := [Printed ("Property " ++ property_id ++ " not found")] |}.

(* ===================================================================== *)
(** ** [calculate_mortgage] *)

(** [a / n] and [a * n] for a float [a] and an int [n]: [n] is converted
    first; a zero [n] then makes the division raise. *)
Definition float_truediv_int (a : float) (n : Z) : pyresult float :=
  do b <- float_of_int n;
  if n =? 0 then Raise ZeroDivisionError else Return (a / b)%float.

Definition float_mul_int (a : float) (n : Z) : pyresult float :=
  do b <- float_of_int n;
  Return (a * b)%float.

(** The returned dict, one field per key. *)
Record Mortgage : Set := {
  loan_amount : float;
  monthly_payment : float;
  total_payment : float;
  total_interest : float
}.

Section Mortgage.
(** [x ** n] for a float [x] and an int [n] is the C library's [pow]
    behind Python's error checks; its rounding is the platform's, so it
    is a parameter of the model. *)
Variable float_pow : float -> Z -> pyresult float.

Definition calculate_mortgage
    (property_price down_payment interest_rate : float) (loan_term : Z)
  : pyresult Mortgage :=
  let loan_amount := (property_price - down_payment)%float in
  let monthly_rate := (interest_rate / 100 / 12)%float in
  let num_payments := loan_term * 12 in
  do monthly_payment <-
    (if (0 <? monthly_rate)%float then
       do growth <- float_pow (1 + monthly_rate)%float num_payments;
       do growth' <- float_pow (1 + monthly_rate)%float num_payments;
       float_truediv (loan_amount * (monthly_rate * growth))%float
                     (growth' - 1)%float
     else
       float_truediv_int loan_amount num_payments);
  do total_payment <- float_mul_int monthly_payment num_payments;
  let total_interest := (total_payment - loan_amount)%float in
  Return {| loan_amount := loan_amount;
            monthly_payment := monthly_payment;
            total_payment := total_payment;
            total_interest := total_interest |}.
End Mortgage.

(** A [pow] to run the model with: repeated multiplication for an exponent
    that is not negative, its reciprocal otherwise, [OverflowError] when the
    result is infinite. *)
Definition pow_by_multiplication (x : float) (n : Z) : pyresult float :=
  let p := Z.iter (Z.abs n) (fun acc => (acc * x)%float) 1%float in
  let r := if n <? 0 then (1 / p)%float else p in
  if is_infinity r then Raise OverflowError else Return r.

(* ===================================================================== *)
(** ** [match_clients_to_properties] *)

(** An entry [{'property': prop, 'match_score': score}] of a result list. *)
Definition scored : Type := Property * Z.
Definition match_score (e : scored) : Z := snd e.

(** [prop.status in [PropertyStatus.FOR_SALE, PropertyStatus.PENDING]] *)
Definition available (prop : Property) : bool :=
  PropertyStatus_eqb (status prop) FOR_SALE
  || PropertyStatus_eqb (status prop) PENDING.

(** [prop.price <= budget * 1.1] *)
Definition fits_budget (budget : float) (prop : Property) : bool :=
  (price prop <=? budget * float_1_1)%float.

(** The four preference checks, in the order of the source; an entry of the
    wrong type makes its comparison raise. *)
Definition score_property (preferences : gmap string pyval) (prop : Property)
  : pyresult Z :=
  let score0 := 0 in
  let score1 :=
    match preferences !! "property_type" with
    | Some wanted =>
        if py_eq (VStr (PropertyType_value (property_type prop))) wanted
        then score0 + 30 else score0
    | None => score0
    end in
  do score2 <-
    match preferences !! "bedrooms" with
    | Some wanted =>
        do enough <- num_ge_val (NInt (bedrooms prop)) wanted;
        Return (if enough then score1 + 25 else score1)
    | None => Return score1
    end;
  do score3 <-
    match preferences !! "city" with
    | Some wanted =>
        do wanted_lower <- val_lower wanted;
        Return (if str_contains wanted_lower (lower (city prop))
                then score2 + 20 else score2)
    | None => Return score2
    end;
  match preferences !! "max_price" with
  | Some wanted =>
      do cheap <- num_le_val (NFloat (price prop)) wanted;
      Return (if cheap then score3 + 15 else score3)
  | None => Return score3
  end.

(** The body of the loop over the properties for one client:
    [suitable_properties] after the step. *)
Definition consider (c : Client) (suitable : list scored) (prop : Property)
  : pyresult (list scored) :=
  if available prop then
    if fits_budget (budget c) prop then
      do score <- score_property (preferences c) prop;
      Return (if 40 <=? score then (suitable ++ [(prop, score)])%list
              else suitable)
    else Return suitable
  else Return suitable.

Definition suitable_properties (c : Client) (props : list Property)
  : pyresult (list scored) :=
  for_each (consider c) props [].

(** [list.sort(key=..., reverse=True)] is a stable sort into descending key
    order.  Insertion from the right produces that list: an element goes in
    front of the first one whose key is not larger than its own, so it stays
    ahead of the later elements with the same key. *)
Fixpoint insert_desc {A} (key : A -> Z) (x : A) (l : list A) : list A :=
  match l with
  | [] => [x]
  | y :: l' => if key x <? key y then y :: insert_desc key x l' else x :: l
  end.

Fixpoint sort_desc {A} (key : A -> Z) (l : list A) : list A :=
  match l with
  | [] => []
  | x :: l' => insert_desc key x (sort_desc key l')
  end.

(** The body of the loop over the clients: [matches] after the step. *)
Definition match_client (props : list Property)
    (matches : Dict.t (list scored)) (c : Client)
  : pyresult (Dict.t (list scored)) :=
  if ClientType_eqb (client_type c) BUYER then
    do suitable <- suitable_properties c props;
    Return (Dict.setitem (client_id c)
                         (firstn 5 (sort_desc match_score suitable)) matches)
  else Return matches.

Definition match_clients_to_properties (self : System)
  : pyresult (Dict.t (list scored)) :=
  for_each (match_client (Dict.values (properties self)))
           (Dict.values (clients self)) [].

(* ===================================================================== *)
(** ** [search_properties_interactive]: from the answers to [results] *)

(** [v[i]] *)
Definition subscript (v : pyval) (i : nat) : pyresult pyval :=
  match v with
  | VTuple l | VList l =>
      match nth_error l i with Some x => Return x | None => Raise IndexError end
  | VStr s =>
      match String.get i s with
      | Some c => Return (VStr (String c EmptyString))
      | None => Raise IndexError
      end
  | _ => Raise TypeError
  end.

(** [a, b = v] *)
Definition unpack2 (v : pyval) : pyresult (pyval * pyval) :=
  match v with
  | VTuple [a; b] | VList [a; b] => Return (a, b)
  | VStr (String a (String b EmptyString)) =>
      Return (VStr (String a EmptyString), VStr (String b EmptyString))
  | VTuple _ | VList _ | VStr _ => Raise ValueError
  | _ => Raise TypeError
  end.

(** [min_price <= p.price <= max_price] *)
Definition in_price_range (min_price max_price : pyval) (p : Property)
  : pyresult bool :=
  do above <- val_le_num min_price (NFloat (price p));
  if above then num_le_val (NFloat (price p)) max_price else Return false.

(** A list comprehension [[p for p in l if test(p)]] whose test may raise. *)
Fixpoint filter_raising {A} (test : A -> pyresult bool) (l : list A)
  : pyresult (list A) :=
  match l with
  | [] => Return []
  | x :: l' =>
      do keep <- test x;
      do rest <- filter_raising test l';
      Return (if keep then x :: rest else rest)
  end.

Section Interactive.
(** [int(value)] and [float(value)] on the text the user typed. *)
Variable parse_int : string -> pyresult Z.
Variable parse_float : string -> pyresult float.

Definition fields : list string :=
  ["city"; "property_type"; "status"; "bedrooms"; "min_price"; "max_price"].

Definition is_empty (s : string) : bool :=
  match s with EmptyString => true | _ => false end.

(** The body of the loop over [fields], given what [input] returned. *)
Definition read_field (answer : string -> string)
    (criteria : Dict.t pyval) (field : string) : pyresult (Dict.t pyval) :=
  let value := answer field in
  if is_empty value then Return criteria
  else if String.eqb field "bedrooms" then
    do n <- parse_int value;
    Return (Dict.setitem field (VInt n) criteria)
  else if String.eqb field "min_price" || String.eqb field "max_price" then
    let current :=
      match Dict.get "price_range" criteria with
      | Some r => r
      | None => VTuple [VInt 0; VFloat infinity]
      end in
    let criteria := Dict.setitem "price_range" current criteria in
    if String.eqb field "min_price" then
      do lo <- parse_float value;
      do range <- Dict.getitem "price_range" criteria;
      do hi <- subscript range 1;
      Return (Dict.setitem "price_range" (VTuple [VFloat lo; hi]) criteria)
    else
      do range <- Dict.getitem "price_range" criteria;
      do lo <- subscript range 0;
      do hi <- parse_float value;
      Return (Dict.setitem "price_range" (VTuple [lo; VFloat hi]) criteria)
  else Return (Dict.setitem field (VStr value) criteria).

Definition read_criteria (answer : string -> string)
  : pyresult (Dict.t pyval) :=
  for_each (read_field answer) fields [].

(** [{k: v for k, v in criteria.items() if k not in ['min_price', 'max_price']}] *)
Definition without_price_bounds (criteria : Dict.t pyval) : Dict.t pyval :=
  List.filter
    (fun kv => negb (String.eqb (fst kv) "min_price"
                     || String.eqb (fst kv) "max_price"))
    criteria.

(** The value of [results] when the method starts printing. *)
Definition search_properties_interactive (self : System)
    (answer : string -> string) : pyresult (list Property) :=
  do criteria <- read_criteria answer;
  let results := search_properties self (without_price_bounds criteria) in
  if Dict.contains "price_range" criteria then
    do range <- Dict.getitem "price_range" criteria;
    do bounds <- unpack2 range;
    filter_raising (in_price_range (fst bounds) (snd bounds)) results
  else Return results.
End Interactive.

(* ===================================================================== *)
(** ** [search_clients] *)

(** An attribute of a client: a value, or the [preferences] dict. *)
Inductive attribute : Type :=
| AValue (v : pyval)
| ADict (d : gmap string pyval).

(** [getattr(client, name)] over the fields of the dataclass, as for
    [Property_getattr]. *)
Definition Client_getattr (c : Client) (name : string) : option attribute :=
  if String.eqb name "client_id" then Some (AValue (VStr (client_id c)))
  else if String.eqb name "first_name" then Some (AValue (VStr (first_name c)))
  else if String.eqb name "last_name" then Some (AValue (VStr (last_name c)))
  else if String.eqb name "email" then Some (AValue (VStr (email c)))
  else if String.eqb name "phone" then Some (AValue (VStr (phone c)))
  else if String.eqb name "client_type" then
    Some (AValue (VClientType (client_type c)))
  else if String.eqb name "budget" then Some (AValue (VFloat (budget c)))
  else if String.eqb name "preferences" then Some (ADict (preferences c))
  else if String.eqb name "interested_properties" then
    Some (AValue (VList (map VStr (interested_properties c))))
  else if String.eqb name "notes" then Some (AValue (VStr (notes c)))
  else None.

(** The body of the loop over [criteria.items()] in [search_clients].  Only
    a [ClientType] is unwrapped.  No value of [pyval] is a dict, so against
    the [preferences] the test [value != client_value] is true. *)
Definition client_criterion_holds (c : Client) (key : string) (value : pyval)
  : bool :=
  match Client_getattr c key with
  | Some (AValue client_value) =>
      let client_value :=
        match client_value with
        | VClientType t => VStr (ClientType_value t)
        | v => v
        end in
      match value, client_value with
      | VStr v, VStr cv => str_contains (lower v) (lower cv)
      | _, cv => py_eq value cv
      end
  | Some (ADict _) => false
  | None => true
  end.

Fixpoint client_criteria_match (c : Client) (criteria : Dict.t pyval) : bool :=
  match criteria with
  | [] => true
  | (key, value) :: rest =>
      if client_criterion_holds c key value
      then client_criteria_match c rest
      else false
  end.

Definition search_clients (self : System) (criteria : Dict.t pyval)
  : list Client :=
  List.filter (fun c => client_criteria_match c criteria)
              (Dict.values (clients self)).

(* ===================================================================== *)
(** ** [search_clients_interactive]: from the typed name to [results] *)

(** [f"{c.first_name} {c.last_name}"] *)
Definition full_name (c : Client) : string :=
  first_name c ++ " " ++ last_name c.

Definition search_clients_interactive (self : System) (name : string)
  : list Client :=
  if is_empty name then Dict.values (clients self)
  else List.filter
         (fun c => str_contains (lower name) (lower (full_name c)))
         (Dict.values (clients self)).

(* ===================================================================== *)
(** ** Calling an enumeration with a value *)

(** [PropertyType(text)]: the member with that value, [ValueError] when no
    member has it. *)
Definition PropertyType_call (text : string) : pyresult PropertyType :=
  if String.eqb text "Residential" then Return RESIDENTIAL
  else if String.eqb text "Commercial" then Return COMMERCIAL
  else if String.eqb text "Land" then Return LAND
  else if String.eqb text "Industrial" then Return INDUSTRIAL
  else Raise ValueError.

Definition PropertyStatus_call (text : string) : pyresult PropertyStatus :=
  if String.eqb text "For Sale" then Return FOR_SALE
  else if String.eqb text "For Rent" then Return FOR_RENT
  else if String.eqb text "Sold" then Return SOLD
  else if String.eqb text "Rented" then Return RENTED
  else if String.eqb text "Pending" then Return PENDING
  else Raise ValueError.

Definition ClientType_call (text : string) : pyresult ClientType :=
  if String.eqb text "Buyer" then Return BUYER
  else if String.eqb text "Seller" then Return SELLER
  else if String.eqb text "Tenant" then Return TENANT
  else if String.eqb text "Landlord" then Return LANDLORD
  else Raise ValueError.

(* ===================================================================== *)
(** ** [add_property] and [add_client] *)

Fixpoint zeros (k : nat) : string :=
  match k with
  | O => ""
  | S k' => String "0" (zeros k')
  end.

(** [f"{n:04d}"] for a count [n]: the decimal digits, with zeros in front
    up to four characters. *)
Definition format_04d (n : nat) : string :=
  let digits := NilZero.string_of_uint (Nat.to_uint n) in
  zeros (4 - String.length digits) ++ digits.

(** The dict handed to [add_property], with the keys of
    [create_listing_template] and the value types [add_property_interactive]
    produces; [agent_id] may be missing. *)
Record PropertyData : Type := {
  pd_address : string;
  pd_city : string;
  pd_state : string;
  pd_zip_code : string;
  pd_property_type : string;
  pd_status : string;
  pd_price : float;
  pd_bedrooms : Z;
  pd_bathrooms : float;
  pd_square_feet : Z;
  pd_year_built : Z;
  pd_description : string;
  pd_listing_date : string;
  pd_features : list string;
  pd_agent_id : option string
}.

(** [add_property] on data that holds every field.  A dict that lacks one
    makes the construction of the [Property] raise [TypeError], or the
    lookup before an enum call raise [KeyError]; [PropertyData] has no such
    value.  [save_data] is the event [Saved]: a failure of the file system
    is outside the model. *)
Definition add_property (self : System) (property_data : PropertyData)
  : outcome string :=
  let property_id :=
    "PROP" ++ format_04d (length (properties self) + 1) in
  match PropertyType_call (pd_property_type property_data) with
  | Raise e => {| result := Raise e; final := self; trace := [] |}
  | Return type =>
      match PropertyStatus_call (pd_status property_data) with
      | Raise e => {| result := Raise e; final := self; trace := [] |}
      | Return stat =>
          let property :=
            {| property_id := property_id;
               address := pd_address property_data;
               city := pd_city property_data;
               state := pd_state property_data;
               zip_code := pd_zip_code property_data;
               property_type := type;
               status := stat;
               price := pd_price property_data;
               bedrooms := pd_bedrooms property_data;
               bathrooms := pd_bathrooms property_data;
               square_feet := pd_square_feet property_data;
               year_built := pd_year_built property_data;
               description := pd_description property_data;
               listing_date := pd_listing_date property_data;
               features := pd_features property_data;
               agent_id := pd_agent_id property_data |} in
          let self' :=
            with_properties self
              (Dict.setitem property_id property (properties self)) in
          {| result := Return property_id;
             final := self';
             trace := [Saved self';
                       Printed ("Property added successfully! ID: "
                                ++ property_id)] |}
      end
  end.

(** The dict handed to [add_client], with the keys and value types of
    [add_client_interactive]; [interested_properties] may be missing. *)
Record ClientData : Type := {
  cd_first_name : string;
  cd_last_name : string;
  cd_email : string;
  cd_phone : string;
  cd_client_type : string;
  cd_budget : float;
  cd_preferences : gmap string pyval;
  cd_interested_properties : option (list string);
  cd_notes : string
}.

Definition with_clients (self : System) (d : Dict.t Client) : System :=
  {| data_dir := data_dir self; properties := properties self; clients := d |}.

Definition add_client (self : System) (client_data : ClientData)
  : outcome string :=
  let client_id := "CLI" ++ format_04d (length (clients self) + 1) in
  match ClientType_call (cd_client_type client_data) with
  | Raise e => {| result := Raise e; final := self; trace := [] |}
  | Return type =>
      let client :=
        {| client_id := client_id;
           first_name := cd_first_name client_data;
           last_name := cd_last_name client_data;
           email := cd_email client_data;
           phone := cd_phone client_data;
           client_type := type;
           budget := cd_budget client_data;
           preferences := cd_preferences client_data;
           interested_properties :=
             match cd_interested_properties client_data with
             | Some l => l
             | None => []
             end;
           notes := cd_notes client_data |} in
      let self' :=
        with_clients self (Dict.setitem client_id client (clients self)) in
      {| result := Return client_id;
         final := self';
         trace := [Saved self';
                   Printed ("Client added successfully! ID: " ++ client_id)] |}
  end.

(* ===================================================================== *)
(** ** [update_property_status_interactive] *)

Definition newline : string := String (ascii_of_nat 10) EmptyString.

Section UpdateInteractive.
(** [text.title()]: capitalised words; its treatment of letters outside
    ASCII does not stay within the code points modelled, so it is a
    parameter. *)
Variable title : string -> string.

(** [property_answer] and [status_answer] are what [input] returns at the
    two prompts; the second prompt appears only for a known identifier.  The
    [try] catches a [ValueError] of the enumeration call and of the update
    alike. *)
Definition update_property_status_interactive
    (self : System) (property_answer status_answer : string)
  : outcome unit :=
  let banner := Printed (newline ++ "--- Update Property Status ---") in
  if Dict.contains property_answer (properties self) then
    match Dict.getitem property_answer (properties self) with
    | Raise e => {| result := Raise e; final := self; trace := [banner] |}
    | Return prop =>
        let current :=
          Printed ("Current Status: " ++ PropertyStatus_value (status prop)) in
        let invalid := Printed "Invalid status entered." in
        match PropertyStatus_call (title status_answer) with
        | Return status_enum =>
            let o := update_property_status self property_answer status_enum in
            match result o with
            | Raise ValueError =>
                {| result := Return tt;
                   final := final o;
                   trace := (banner :: current :: trace o ++ [invalid])%list |}
            | r =>
                {| result := r;
                   final := final o;
                   trace := banner :: current :: trace o |}
            end
        | Raise ValueError =>
            {| result := Return tt;
               final := self;
               trace := [banner; current; invalid] |}
        | Raise e =>
            {| result := Raise e; final := self; trace := [banner; current] |}
        end
    end
  else
    {| result := Return tt;
       final := self;
       trace := [banner; Printed "Property not found."] |}.
End UpdateInteractive.

(* ===================================================================== *)
(** ** [calculate_property_value] *)

(** The literal [0.05], that is the double 0x1.999999999999ap-5. *)
Definition float_0_05 : float := 0x1.999999999999ap-5%float.

(** [a + b] on numbers: exact on two ints, in floating point otherwise,
    after converting an int operand. *)
Definition num_add (a b : pynum) : pyresult pynum :=
  match a, b with
  | NInt x, NInt y => Return (NInt (x + y))
  | NInt x, NFloat g => do f <- float_of_int x; Return (NFloat (f + g)%float)
  | NFloat f, NInt y => do g <- float_of_int y; Return (NFloat (f + g)%float)
  | NFloat f, NFloat g => Return (NFloat (f + g)%float)
  end.

(** [a * f] for a number [a] and a float [f]. *)
Definition num_mul_float (a : pynum) (f : float) : pyresult float :=
  match a with
  | NInt x => do g <- float_of_int x; Return (g * f)%float
  | NFloat g => Return (g * f)%float
  end.

(** The two entries of [property_data] the function reads, each of which
    may be missing: a float [price] and a list of strings [features]. *)
Record ValuationData : Type := {
  vd_price : option float;
  vd_features : option (list string)
}.

(** [comp['price'] for comp in comps], each comparable given by its float
    [price] entry if it has one: the first one without raises. *)
Fixpoint comp_prices (comps : list (option float)) : pyresult (list float) :=
  match comps with
  | [] => Return []
  | Some p :: rest => do ps <- comp_prices rest; Return (p :: ps)
  | None :: _ => Raise KeyError
  end.

Definition base_features : list string := ["Garage"; "Pool"; "Renovated"].

Section Valuation.
(** [sum] over floats: plain left-to-right addition in older interpreters,
    compensated summation in newer ones, so it is a parameter. *)
Variable float_sum : list float -> float.

(** [property_data.get('price', 0)] *)
Definition own_price (property_data : ValuationData) : pynum :=
  match vd_price property_data with
  | Some p => NFloat p
  | None => NInt 0
  end.

(** The body of the loop over [base_features]: [adjustments] after it. *)
Definition adjust (property_data : ValuationData)
    (adjustments : pynum) (feature : string) : pyresult pynum :=
  let features :=
    match vd_features property_data with Some l => l | None => [] end in
  if existsb (String.eqb feature) features then
    do share <- num_mul_float (own_price property_data) float_0_05;
    num_add adjustments (NFloat share)
  else Return adjustments.

Definition calculate_property_value
    (property_data : ValuationData) (comps : list (option float))
  : pyresult pynum :=
  match comps with
  | [] => Return (own_price property_data)
  | _ :: _ =>
      do prices <- comp_prices comps;
      let total_price := float_sum prices in
      do avg_price <- float_truediv_int total_price (Z.of_nat (length comps));
      do adjustments <-
        for_each (adjust property_data) base_features (NInt 0);
      num_add (NFloat avg_price) adjustments
  end.
End Valuation.

(* ===================================================================== *)
(** * Vocabulary of the statements *)

(** ** Attribute names *)

(** Beyond the fields of its dataclass a Python object carries the special
    attributes of every object ([__class__], [__doc__], [__module__],
    [__dict__] and the like): for these [hasattr] is true and [getattr]
    answers a class, a text or a method.  All their names begin with an
    underscore.  On every other name [Property_getattr] is [getattr], and
    its [None] is [hasattr(prop, name) == False]. *)
Definition begins_with_underscore (name : string) : bool :=
  match name with
  | String "_"%char _ => true
  | _ => false
  end.

(** ** The sample data of [initialize_sample_data] *)

Definition sample_property_1 : Property := {|
  property_id := "PROP0001"; address := "123 Main St"; city := "New York";
  state := "NY"; zip_code := "10001"; property_type := RESIDENTIAL;
  status := FOR_SALE; price := 750000%float; bedrooms := 3;
  bathrooms := 2.5%float; square_feet := 2200; year_built := 2010;
  description := "Beautiful modern townhouse"; listing_date := "2024-01-15";
  features := ["Garage"; "Garden"; "Pool"]; agent_id := None |}.

Definition sample_property_2 : Property := {|
  property_id := "PROP0002"; address := "456 Oak Ave"; city := "Los Angeles";
  state := "CA"; zip_code := "90001"; property_type := COMMERCIAL;
  status := FOR_RENT; price := 5000%float; bedrooms := 0;
  bathrooms := 2%float; square_feet := 1500; year_built := 2015;
  description := "Prime commercial space"; listing_date := "2024-01-10";
  features := ["Parking"; "Security"; "AC"]; agent_id := None |}.

Definition sample_client : Client := {|
  client_id := "CLI0001"; first_name := "John"; last_name := "Doe";
  email := "john@example.com"; phone := "555-0101"; client_type := BUYER;
  budget := 800000%float;
  preferences :=
    <["property_type" := VStr "Residential"]>
      (<["bedrooms" := VInt 3]> (<["city" := VStr "New York"]> ∅));
  interested_properties := ["PROP0001"];
  notes := "Looking for family home" |}.

Definition sample_system : System := {|
  data_dir := "data";
  properties := [("PROP0001", sample_property_1);
                 ("PROP0002", sample_property_2)];
  clients := [("CLI0001", sample_client)] |}.

(** The first sample property under another identifier, in another city and
    with another number of bedrooms. *)
Definition listing (id town : string) (beds : Z) : Property := {|
  property_id := id; address := address sample_property_1; city := town;
  state := state sample_property_1; zip_code := zip_code sample_property_1;
  property_type := property_type sample_property_1;
  status := status sample_property_1; price := price sample_property_1;
  bedrooms := beds; bathrooms := bathrooms sample_property_1;
  square_feet := square_feet sample_property_1;
  year_built := year_built sample_property_1;
  description := description sample_property_1;
  listing_date := listing_date sample_property_1;
  features := features sample_property_1;
  agent_id := agent_id sample_property_1 |}.

(** Seven listings for the sample client, with scores 55, 75, 55, 50, 75,
    55 and 30 in the order of the collection. *)
Definition busy_system : System := {|
  data_dir := "data";
  properties := [("PROP0001", listing "PROP0001" "Boston" 3);
                 ("PROP0002", listing "PROP0002" "New York" 3);
                 ("PROP0003", listing "PROP0003" "Boston" 4);
                 ("PROP0004", listing "PROP0004" "New York" 2);
                 ("PROP0005", listing "PROP0005" "New York" 5);
                 ("PROP0006", listing "PROP0006" "Boston" 3);
                 ("PROP0007", listing "PROP0007" "Boston" 1)];
  clients := clients sample_system |}.

Definition busy_matches : Dict.t (list scored) :=
  [("CLI0001", [(listing "PROP0002" "New York" 3, 75);
                (listing "PROP0005" "New York" 5, 75);
                (listing "PROP0001" "Boston" 3, 55);
                (listing "PROP0003" "Boston" 4, 55);
                (listing "PROP0006" "Boston" 3, 55)])].

(** A buyer whose four preferences the first sample property satisfies, with
    a budget it exceeds by more than a tenth. *)
Definition thrifty_client : Client := {|
  client_id := "CLI0002"; first_name := "Jane"; last_name := "Roe";
  email := "jane@example.com"; phone := "555-0102"; client_type := BUYER;
  budget := 600000%float;
  preferences :=
    <["property_type" := VStr "Residential"]>
      (<["bedrooms" := VInt 2]>
         (<["city" := VStr "york"]>
            (<["max_price" := VInt 1000000]> ∅)));
  interested_properties := [];
  notes := "" |}.

Definition thrifty_system : System := {|
  data_dir := "data";
  properties := properties sample_system;
  clients := [("CLI0002", thrifty_client)] |}.

(** The user types a minimum of 5000 and nothing else. *)
Definition only_min_price (field : string) : string :=
  if String.eqb field "min_price" then "5000" else "".

Definition float_of_5000 (text : string) : pyresult float :=
  if String.eqb text "5000" then Return 5000%float else Raise ValueError.

Definition int_of_nothing (text : string) : pyresult Z := Raise ValueError.

(** The straight-line result for [n] months. *)
Definition straight_line (loan n : float) : Mortgage :=
  {| loan_amount := loan;
     monthly_payment := (loan / n)%float;
     total_payment := (loan / n * n)%float;
     total_interest := (loan / n * n - loan)%float |}.

(** Keys that never increase from an element to any later one. *)
Definition descending {A} (key : A -> Z) (l : list A) : Prop :=
  StronglySorted (fun a b => key b <= key a) l.

(** The test "has key [s]". *)
Definition with_key {A} (key : A -> Z) (s : Z) (x : A) : bool := key x =? s.

(** One weight of the score, counted when its preference is satisfied. *)
Definition weight (points : Z) (earned : bool) : Z :=
  if earned then points else 0.

(** Whether each of the four preferences is present and satisfied. *)
Definition type_preferred (preferences : gmap string pyval) (prop : Property)
  : bool :=
  match preferences !! "property_type" with
  | Some wanted => py_eq (VStr (PropertyType_value (property_type prop))) wanted
  | None => false
  end.

Definition bedrooms_preferred (preferences : gmap string pyval)
    (prop : Property) : bool :=
  match preferences !! "bedrooms" with
  | Some wanted =>
      match num_ge_val (NInt (bedrooms prop)) wanted with
      | Return enough => enough
      | Raise _ => false
      end
  | None => false
  end.

Definition city_preferred (preferences : gmap string pyval) (prop : Property)
  : bool :=
  match preferences !! "city" with
  | Some (VStr wanted) => str_contains (lower wanted) (lower (city prop))
  | _ => false
  end.

Definition price_preferred (preferences : gmap string pyval) (prop : Property)
  : bool :=
  match preferences !! "max_price" with
  | Some wanted =>
      match num_le_val (NFloat (price prop)) wanted with
      | Return cheap => cheap
      | Raise _ => false
      end
  | None => false
  end.

(** The preferences whose comparisons cannot raise: a numeric minimum of
    bedrooms, a string for the city, a numeric maximum price. *)
Definition preferences_typed (preferences : gmap string pyval) : Prop :=
  (forall v, preferences !! "bedrooms" = Some v -> is_Some (as_num v))
  /\ (forall v, preferences !! "city" = Some v -> exists s, v = VStr s)
  /\ (forall v, preferences !! "max_price" = Some v -> is_Some (as_num v)).

(** What the loop admits: an available property within 110% of the budget
    whose score reaches the threshold. *)
Definition accepted (c : Client) (e : scored) : Prop :=
  available (fst e) = true
  /\ fits_budget (budget c) (fst e) = true
  /\ score_property (preferences c) (fst e) = Return (snd e)
  /\ 40 <= snd e.

(** The five best of a client's collected properties. *)
Definition top_matches (suitable : list scored) : list scored :=
  firstn 5 (sort_desc match_score suitable).

(** The list of a buyer [c] over the properties [props]. *)
Definition list_of (props : list Property) (c : Client) (lst : list scored)
  : Prop :=
  client_type c = BUYER
  /\ exists suitable,
       suitable_properties c props = Return suitable
       /\ lst = top_matches suitable.

(** [min_price <= p.price <= max_price] for numeric bounds. *)
Definition within (min_price max_price : pynum) (p : Property) : bool :=
  num_le min_price (NFloat (price p)) && num_le (NFloat (price p)) max_price.

(** What the user typed for a bound: nothing, or a text [float] accepts. *)
Definition bound_answer (parse_float : string -> pyresult float)
    (text : string) : pyresult (option float) :=
  if is_empty text then Return None
  else do f <- parse_float text; Return (Some f).

(** What the user typed for the bedrooms: nothing, or a text [int]
    accepts. *)
Definition bedrooms_answer_ok (parse_int : string -> pyresult Z)
    (text : string) : Prop :=
  is_empty text = true \/ returns (parse_int text).

(** ** More vocabulary *)

(** A keyword argument whose kind of value never equals the attribute it
    names: a text for a numeric field, or an enum member for [status] or
    [property_type], whose values are unwrapped to their texts before the
    comparison. *)
Definition criterion_type_mismatch (key : string) (value : pyval) : bool :=
  match value with
  | VStr _ =>
      existsb (String.eqb key)
        ["price"; "bedrooms"; "bathrooms"; "square_feet"; "year_built"]
  | VPropertyStatus _ | VPropertyType _ =>
      String.eqb key "status" || String.eqb key "property_type"
  | _ => false
  end.

(** How many of the four preferences are present and satisfied. *)
Definition satisfied_count (preferences : gmap string pyval) (prop : Property)
  : Z :=
  weight 1 (type_preferred preferences prop)
  + weight 1 (bedrooms_preferred preferences prop)
  + weight 1 (city_preferred preferences prop)
  + weight 1 (price_preferred preferences prop).

(** The properties the loop scores for a client: available and within 110%
    of the budget. *)
Definition scored_for (c : Client) (prop : Property) : bool :=
  available prop && fits_budget (budget c) prop.

Definition is_buyer (c : Client) : bool := ClientType_eqb (client_type c) BUYER.

(** A seller, for whom the loop over the properties never runs. *)
Definition seller_client : Client := {|
  client_id := "CLI0003"; first_name := "Sam"; last_name := "Poe";
  email := "sam@example.com"; phone := "555-0103"; client_type := SELLER;
  budget := 0%float; preferences := ∅;
  interested_properties := []; notes := "" |}.

(** A buyer whose bedroom preference was stored as text. *)
Definition careless_client : Client := {|
  client_id := "CLI0004"; first_name := "Kim"; last_name := "Lee";
  email := "kim@example.com"; phone := "555-0104"; client_type := BUYER;
  budget := 900000%float;
  preferences := <["bedrooms" := VStr "3"]> ∅;
  interested_properties := []; notes := "" |}.

Definition mixed_system : System := {|
  data_dir := "data";
  properties := properties sample_system;
  clients := [("CLI0003", seller_client); ("CLI0001", sample_client);
              ("CLI0002", thrifty_client)] |}.

Definition careless_system : System := {|
  data_dir := "data";
  properties := properties sample_system;
  clients := [("CLI0004", careless_client)] |}.

(** Reading back the digits [format_04d] writes. *)
Definition read_decimal (s : string) : option nat :=
  option_map Nat.of_uint (NilEmpty.uint_of_string s).

(** A collection whose keys are [prefix] followed by 0001, 0002, ... in
    order: what [add_property] and [add_client] build from an empty one. *)
Definition numbered {V} (prefix : string) (d : Dict.t V) : Prop :=
  Dict.keys d = map (fun n => prefix ++ format_04d n) (seq 1 (length d)).

(** The record [add_property] constructs. *)
Definition new_property (id : string) (type : PropertyType)
    (stat : PropertyStatus) (data : PropertyData) : Property :=
  {| property_id := id;
     address := pd_address data; city := pd_city data;
     state := pd_state data; zip_code := pd_zip_code data;
     property_type := type; status := stat;
     price := pd_price data; bedrooms := pd_bedrooms data;
     bathrooms := pd_bathrooms data; square_feet := pd_square_feet data;
     year_built := pd_year_built data; description := pd_description data;
     listing_date := pd_listing_date data; features := pd_features data;
     agent_id := pd_agent_id data |}.

(** The record [add_client] constructs. *)
Definition new_client (id : string) (type : ClientType) (data : ClientData)
  : Client :=
  {| client_id := id;
     first_name := cd_first_name data; last_name := cd_last_name data;
     email := cd_email data; phone := cd_phone data;
     client_type := type; budget := cd_budget data;
     preferences := cd_preferences data;
     interested_properties :=
       match cd_interested_properties data with Some l => l | None => [] end;
     notes := cd_notes data |}.

(** What [add_property_interactive] passes for the first sample property. *)
Definition sample_data : PropertyData := {|
  pd_address := "123 Main St"; pd_city := "New York"; pd_state := "NY";
  pd_zip_code := "10001"; pd_property_type := "Residential";
  pd_status := "For Sale"; pd_price := 750000%float; pd_bedrooms := 3;
  pd_bathrooms := 2.5%float; pd_square_feet := 2200; pd_year_built := 2010;
  pd_description := "Beautiful modern townhouse";
  pd_listing_date := "2024-01-15";
  pd_features := ["Garage"; "Garden"; "Pool"]; pd_agent_id := None |}.

(** The data with another text under [property_type]. *)
Definition with_type_text (text : string) (data : PropertyData)
  : PropertyData := {|
  pd_address := pd_address data; pd_city := pd_city data;
  pd_state := pd_state data; pd_zip_code := pd_zip_code data;
  pd_property_type := text; pd_status := pd_status data;
  pd_price := pd_price data; pd_bedrooms := pd_bedrooms data;
  pd_bathrooms := pd_bathrooms data; pd_square_feet := pd_square_feet data;
  pd_year_built := pd_year_built data; pd_description := pd_description data;
  pd_listing_date := pd_listing_date data; pd_features := pd_features data;
  pd_agent_id := pd_agent_id data |}.

Definition sample_client_data : ClientData := {|
  cd_first_name := "John"; cd_last_name := "Doe";
  cd_email := "john@example.com"; cd_phone := "555-0101";
  cd_client_type := "Buyer"; cd_budget := 800000%float;
  cd_preferences := preferences sample_client;
  cd_interested_properties := None; cd_notes := "Looking for family home" |}.

Definition empty_system : System :=
  {| data_dir := "data"; properties := []; clients := [] |}.

(** A properties file from which the first of two records was removed by
    hand. *)
Definition gapped_system : System := {|
  data_dir := "data";
  properties := [("PROP0002", sample_property_2)];
  clients := [] |}.

(** What the user typed for the bedrooms, converted. *)
Definition typed_bedrooms (parse_int : string -> pyresult Z) (text : string)
  : pyresult (option Z) :=
  if is_empty text then Return None
  else do n <- parse_int text; Return (Some n).

(** The criterion a text prompt contributes. *)
Definition text_criterion (answer : string -> string) (field : string)
  : Dict.t pyval :=
  if is_empty (answer field) then [] else [(field, VStr (answer field))].

(** The range tuple the two price prompts leave among the criteria. *)
Definition typed_range (lo hi : option float) : option pyval :=
  match lo, hi with
  | None, None => None
  | _, _ =>
      Some (VTuple [match lo with Some f => VFloat f | None => VInt 0 end;
                    VFloat (match hi with Some f => f | None => infinity end)])
  end.

(** The criteria after the six prompts. *)
Definition typed_criteria (answer : string -> string)
    (beds : option Z) (lo hi : option float) : Dict.t pyval :=
  (text_criterion answer "city"
   ++ text_criterion answer "property_type"
   ++ text_criterion answer "status"
   ++ match beds with Some n => [("bedrooms", VInt n)] | None => [] end
   ++ match typed_range lo hi with
      | Some range => [("price_range", range)]
      | None => []
      end)%list.

(** A prompt left empty accepts every record; a typed text has to occur,
    in any case, in the attribute. *)
Definition text_matches (typed attribute : string) : bool :=
  is_empty typed || str_contains (lower typed) (lower attribute).

(** The records the interactive search shows for the typed answers. *)
Definition shown (answer : string -> string)
    (beds : option Z) (lo hi : option float) (p : Property) : bool :=
  text_matches (answer "city") (city p)
  && text_matches (answer "property_type")
       (PropertyType_value (property_type p))
  && text_matches (answer "status") (PropertyStatus_value (status p))
  && match beds with Some n => n =? bedrooms p | None => true end
  && match lo, hi with
     | None, None => true
     | _, _ =>
         within (match lo with Some f => NFloat f | None => NInt 0 end)
                (NFloat (match hi with Some f => f | None => infinity end)) p
     end.

(** The user asks for a city and a number of bedrooms. *)
Definition city_and_bedrooms (field : string) : string :=
  if String.eqb field "city" then "YORK"
  else if String.eqb field "bedrooms" then "3"
  else "".

Definition int_of_3 (text : string) : pyresult Z :=
  if String.eqb text "3" then Return 3 else Raise ValueError.

(** [sum] as the older interpreters compute it: left to right from 0. *)
Definition sum_left_to_right (l : list float) : float :=
  fold_left (fun acc x => (acc + x)%float) l 0%float.

(** The features [calculate_property_value] looks at. *)
Definition features_of (data : ValuationData) : list string :=
  match vd_features data with Some l => l | None => [] end.

Definition plain_house : ValuationData :=
  {| vd_price := Some 500000%float; vd_features := Some ["Garden"] |}.

Definition house_with_pool : ValuationData :=
  {| vd_price := Some 500000%float;
     vd_features := Some ["Pool"; "Garden"; "Pool"] |}.

Definition house_with_pool_only : ValuationData :=
  {| vd_price := Some 500000%float; vd_features := Some ["Pool"] |}.

(* ===================================================================== *)
(** * Properties *)


(* ===================================================================== *)
(** ** Floating-point comparisons *)

Section FloatFacts.
Local Open Scope float_scope.

Lemma compare_cont_Eq_antisym (p q : positive) :
  Pos.compare_cont Eq q p = CompOpp (Pos.compare_cont Eq p q).
Proof. symmetry. apply (Pos.compare_cont_antisym p q Eq). Qed.

Lemma SFcompare_antisym (x y : spec_float) (c : comparison) :
  SFcompare x y = Some c -> SFcompare y x = Some (CompOpp c).
Proof.
  destruct x as [sx | sx | | sx mx ex], y as [sy | sy | | sy my ey];
    simpl; try discriminate;
    try (destruct sx); try (destruct sy);
    intros [= <-]; try reflexivity;
    rewrite (Z.compare_antisym ex ey), (compare_cont_Eq_antisym mx my);
    destruct (ex ?= ey)%Z; simpl; try reflexivity;
    now destruct (Pos.compare_cont Eq mx my).
Qed.

Lemma SFcompare_refl (x y : spec_float) (c : comparison) :
  SFcompare x y = Some c -> SFcompare x x = Some Eq.
Proof.
  destruct x as [sx | sx | | sx mx ex]; simpl.
  - reflexivity.
  - now destruct sx.
  - discriminate.
  - intros _. rewrite Z.compare_refl.
    assert (Pos.compare_cont Eq mx mx = Eq) as ->
      by (change (Pos.compare mx mx = Eq); apply Pos.compare_refl).
    now destruct sx.
Qed.

(** [a < b] rules out [b <= a]. *)
Lemma ltb_true_leb_false (a b : float) :
  (a <? b) = true -> (b <=? a) = false.
Proof.
  rewrite FloatAxioms.ltb_spec, FloatAxioms.leb_spec. unfold SFltb, SFleb.
  destruct (SFcompare (Prim2SF a) (Prim2SF b)) as [c|] eqn:E; try discriminate.
  rewrite (SFcompare_antisym _ _ _ E).
  now destruct c.
Qed.

(** A float that is ordered against something is not a NaN, so it is
    [<=] itself. *)
Lemma leb_true_refl_l (a b : float) : (a <=? b) = true -> (a <=? a) = true.
Proof.
  rewrite !FloatAxioms.leb_spec. unfold SFleb.
  destruct (SFcompare (Prim2SF a) (Prim2SF b)) as [c|] eqn:E; try discriminate.
  now rewrite (SFcompare_refl _ _ _ E).
Qed.

Lemma leb_true_refl_r (a b : float) : (a <=? b) = true -> (b <=? b) = true.
Proof.
  rewrite !FloatAxioms.leb_spec. unfold SFleb.
  destruct (SFcompare (Prim2SF a) (Prim2SF b)) as [c|] eqn:E; try discriminate.
  apply SFcompare_antisym in E.
  now rewrite (SFcompare_refl _ _ _ E).
Qed.

(** The floats that compare equal to zero are the two zeros. *)
Lemma eqb_zero_cases (r : float) : (r =? 0) = true -> r = 0 \/ r = -0.
Proof.
  rewrite FloatAxioms.eqb_spec. unfold SFeqb.
  intros H. rewrite <- (SF2Prim_Prim2SF r).
  destruct (Prim2SF r) as [s | s | | s m e]; simpl in H.
  - destruct s; [right | left]; reflexivity.
  - now destruct s.
  - discriminate.
  - now destruct s.
Qed.
End FloatFacts.

(* ===================================================================== *)
(** ** Substrings *)

Lemma prefix_iff_append (n h : string) :
  String.prefix n h = true <-> exists post, h = n ++ post.
Proof.
  revert n. induction h as [| b h IH]; intros [| a n]; simpl.
  - split; [intros _; now exists "" | reflexivity].
  - split; [discriminate | intros [post [=]]].
  - split; [intros _; now exists (String b h) | reflexivity].
  - destruct (ascii_dec a b) as [-> | Hab].
    + rewrite IH. split; intros [post E]; exists post.
      * now rewrite E.
      * now injection E.
    + split; [discriminate | intros [post [= E _]]; now subst].
Qed.

(** [str_contains] is the substring relation. *)
Lemma str_contains_iff (n h : string) :
  str_contains n h = true <-> exists pre post, h = pre ++ n ++ post.
Proof.
  induction h as [| c h IH]; cbn [str_contains].
  - rewrite orb_false_r, prefix_iff_append. split.
    + intros [post E]. now exists "", post.
    + intros [[| ? ?] [post E]]; [now exists post | discriminate].
  - rewrite orb_true_iff, IH, prefix_iff_append. split.
    + intros [[post E] | [pre [post E]]].
      * now exists "", post.
      * exists (String c pre), post. simpl. now rewrite E.
    + intros [[| c' pre] [post E]].
      * left. now exists post.
      * right. exists pre, post. now injection E.
Qed.

(* ===================================================================== *)
(** ** The criteria matcher *)

Lemma criteria_match_app (prop : Property) (c1 c2 : Dict.t pyval) :
  criteria_match prop (c1 ++ c2)%list
  = criteria_match prop c1 && criteria_match prop c2.
Proof.
  induction c1 as [| [key value] c1 IH]; simpl; [reflexivity |].
  now destruct (criterion_holds prop key value).
Qed.

(** The price range that the interactive search leaves among the criteria
    names no attribute, and the record still matches. *)
Lemma absent_field_still_matches :
  begins_with_underscore "price_range" = false
  /\ Property_getattr sample_property_1 "price_range" = None
  /\ criteria_match sample_property_1
       [("price_range", VTuple [VInt 0; VFloat infinity])] = true
  /\ search_properties sample_system
       [("price_range", VTuple [VInt 0; VFloat infinity])]
     = [sample_property_1; sample_property_2].
Proof. repeat split. Qed.

(** C1, as the code has it: a criterion whose name the record has no
    attribute for is skipped, so the record's match is the match on the
    remaining criteria.  The name is none of the fields and does not begin
    with an underscore, which is when [hasattr(prop, key)] is false: a name
    such as [__class__] is none of the fields either, but every object has
    that attribute and the code tests the criterion. *)
Theorem absent_field_is_skipped
    (prop : Property) (before after : Dict.t pyval)
    (key : string) (value : pyval) :
  begins_with_underscore key = false ->
  Property_getattr prop key = None ->
  criteria_match prop (before ++ (key, value) :: after)%list
  = criteria_match prop (before ++ after)%list.
Proof.
  intros _ Habsent. rewrite !criteria_match_app. simpl.
  unfold criterion_holds. now rewrite Habsent.
Qed.

Lemma absent_field_is_skipped_witness :
  criteria_match sample_property_1
    ([("city", VStr "york")] ++ ("min_price", VInt 1) :: [("bedrooms", VInt 3)])%list
  = criteria_match sample_property_1
      ([("city", VStr "york")] ++ [("bedrooms", VInt 3)])%list.
Proof.
  apply (absent_field_is_skipped sample_property_1
           [("city", VStr "york")] [("bedrooms", VInt 3)]
           "min_price" (VInt 1)); reflexivity.
Defined.

(** C6: when the expected value is a string and the attribute, enum members
    unwrapped, is a string, the criterion accepts the record exactly when
    the lowercased expected string occurs inside the lowercased attribute. *)
Theorem string_criterion_is_substring
    (prop : Property) (key expected actual : string) (attr : pyval) :
  Property_getattr prop key = Some attr ->
  unwrap_enum attr = VStr actual ->
  criterion_holds prop key (VStr expected)
    = str_contains (lower expected) (lower actual)
  /\ criteria_match prop [(key, VStr expected)]
     = str_contains (lower expected) (lower actual)
  /\ (criterion_holds prop key (VStr expected) = true
      <-> exists pre post, lower actual = pre ++ lower expected ++ post).
Proof.
  intros Hattr Hstr.
  assert (criterion_holds prop key (VStr expected)
          = str_contains (lower expected) (lower actual)) as E
    by (unfold criterion_holds; now rewrite Hattr, Hstr).
  repeat split.
  - exact E.
  - simpl. rewrite E. now destruct (str_contains _ _).
  - rewrite E. apply str_contains_iff.
  - rewrite E. apply str_contains_iff.
Qed.

Lemma string_criterion_is_substring_witness :
  criterion_holds sample_property_1 "status" (VStr "SALE")
    = str_contains (lower "SALE") (lower "For Sale")
  /\ criteria_match sample_property_1 [("status", VStr "SALE")]
     = str_contains (lower "SALE") (lower "For Sale")
  /\ (criterion_holds sample_property_1 "status" (VStr "SALE") = true
      <-> exists pre post, lower "For Sale" = pre ++ lower "SALE" ++ post).
Proof.
  apply (string_criterion_is_substring sample_property_1 "status"
           "SALE" "For Sale" (VPropertyStatus FOR_SALE));
    reflexivity.
Defined.

(** Equality is not needed: part of a city's name, in any case, is enough,
    and a longer string than the attribute is not. *)
Example partial_city_matches :
  criterion_holds sample_property_1 "city" (VStr "new") = true
  /\ criterion_holds sample_property_1 "city" (VStr "newarkxyz") = false.
Proof. split; reflexivity. Qed.

(** C7: with no criteria every record of the collection is returned, in the
    collection's order. *)
Theorem empty_search_returns_everything (self : System) :
  search_properties self [] = Dict.values (properties self)
  /\ forall prop, criteria_match prop [] = true.
Proof.
  split; [| reflexivity].
  unfold search_properties. simpl.
  induction (Dict.values (properties self)) as [| p l IH]; simpl; congruence.
Qed.

(* ===================================================================== *)
(** ** Dictionaries *)

Lemma Dict_get_setitem_eq {V} (k : string) (v : V) (d : Dict.t V) :
  Dict.get k (Dict.setitem k v d) = Some v.
Proof.
  induction d as [| [k' v'] d IH]; simpl.
  - now rewrite String.eqb_refl.
  - destruct (String.eqb k k') eqn:E; simpl; rewrite E; [reflexivity | exact IH].
Qed.

Lemma Dict_get_setitem_ne {V} (k k' : string) (v : V) (d : Dict.t V) :
  k' <> k -> Dict.get k' (Dict.setitem k v d) = Dict.get k' d.
Proof.
  intros Hne. apply String.eqb_neq in Hne.
  induction d as [| [k0 v0] d IH]; simpl.
  - now rewrite Hne.
  - destruct (String.eqb k k0) eqn:E; simpl.
    + apply String.eqb_eq in E. subst k0. now rewrite Hne.
    + now rewrite IH.
Qed.

Lemma Dict_get_setitem {V} (k k' : string) (v : V) (d : Dict.t V) :
  Dict.get k' (Dict.setitem k v d)
  = if String.eqb k' k then Some v else Dict.get k' d.
Proof.
  destruct (String.eqb k' k) eqn:E.
  - apply String.eqb_eq in E. subst. apply Dict_get_setitem_eq.
  - apply String.eqb_neq in E. now apply Dict_get_setitem_ne.
Qed.

Lemma Dict_keys_setitem_present {V} (k : string) (v v0 : V) (d : Dict.t V) :
  Dict.get k d = Some v0 -> Dict.keys (Dict.setitem k v d) = Dict.keys d.
Proof.
  induction d as [| [k' v'] d IH]; simpl; [discriminate |].
  destruct (String.eqb k k') eqn:E; simpl; [reflexivity |].
  intros H. unfold Dict.keys. simpl. f_equal. now apply IH.
Qed.

Lemma Dict_In_setitem {V} (k k' : string) (v v' : V) (d : Dict.t V) :
  List.In (k', v') (Dict.setitem k v d) ->
  (k' = k /\ v' = v) \/ List.In (k', v') d.
Proof.
  induction d as [| [k0 v0] d IH]; simpl.
  - intros [[= <- <-] | []]. now left.
  - destruct (String.eqb k k0) eqn:E; simpl.
    + apply String.eqb_eq in E. subst k0.
      intros [[= <- <-] | H]; [now left | now right; right].
    + intros [H | H]; [now right; left |].
      destruct (IH H) as [? | ?]; [now left | now right; right].
Qed.

(* ===================================================================== *)
(** ** [update_property_status] *)

(** Assigning the status leaves every other attribute as it was. *)
Lemma set_status_only_status (s : PropertyStatus) (p : Property) :
  status (set_status s p) = s
  /\ forall name, name <> "status" ->
       Property_getattr (set_status s p) name = Property_getattr p name.
Proof.
  split; [reflexivity |].
  intros name Hne. apply String.eqb_neq in Hne.
  unfold Property_getattr. rewrite Hne. reflexivity.
Qed.

(** An unknown identifier is not an error for the caller: the method prints
    a line and returns [None]. *)
Lemma unknown_identifier_returns_normally :
  Dict.contains "PROP0009" (properties sample_system) = false
  /\ result (update_property_status sample_system "PROP0009" SOLD) = Return tt
  /\ final (update_property_status sample_system "PROP0009" SOLD)
     = sample_system
  /\ trace (update_property_status sample_system "PROP0009" SOLD)
     = [Printed "Property PROP0009 not found"].
Proof. repeat split. Qed.

(** C2, as the code has it: the method never raises.  For an identifier that
    is not in the collection it leaves the system as it is and prints
    "Property <id> not found"; for one that is, it replaces the status of
    the record stored under that identifier and nothing else (same keys in
    the same order, every other entry and every other attribute unchanged),
    saves, and prints the confirmation. *)
Theorem update_property_status_effect
    (self : System) (pid : string) (new_status : PropertyStatus) :
  let o := update_property_status self pid new_status in
  result o = Return tt
  /\ match Dict.get pid (properties self) with
     | None =>
         final o = self
         /\ trace o = [Printed ("Property " ++ pid ++ " not found")]
     | Some prop =>
         Dict.keys (properties (final o)) = Dict.keys (properties self)
         /\ (forall k, Dict.get k (properties (final o))
                       = if String.eqb k pid
                         then Some (set_status new_status prop)
                         else Dict.get k (properties self))
         /\ status (set_status new_status prop) = new_status
         /\ (forall name, name <> "status" ->
               Property_getattr (set_status new_status prop) name
               = Property_getattr prop name)
         /\ clients (final o) = clients self
         /\ data_dir (final o) = data_dir self
         /\ trace o = [Saved (final o);
                       Printed ("Property " ++ pid ++ " status updated to "
                                ++ PropertyStatus_value new_status)]
     end.
Proof.
  unfold update_property_status, Dict.contains, Dict.getitem.
  destruct (Dict.get pid (properties self)) as [prop |] eqn:E; simpl.
  - split; [reflexivity |]. repeat split.
    + now apply Dict_keys_setitem_present with (v0 := prop).
    + intros k. apply Dict_get_setitem.
    + intros name Hne. now apply set_status_only_status.
  - repeat split.
Qed.

(* ===================================================================== *)
(** ** [calculate_mortgage] *)

Section MortgageFacts.
Variable float_pow : float -> Z -> pyresult float.
Local Open Scope float_scope.


(** When [monthly_rate > 0] is false, a term other than zero whose number
    of months fits a double gives the straight-line result. *)
Lemma calculate_mortgage_flat (P D R : float) (T : Z) (n : float) :
  (0 <? R / 100 / 12) = false ->
  T <> 0%Z ->
  float_of_int (T * 12) = Return n ->
  calculate_mortgage float_pow P D R T = Return (straight_line (P - D) n).
Proof.
  intros Hrate HT Hn.
  unfold calculate_mortgage, float_truediv_int, float_mul_int.
  rewrite Hrate, Hn. simpl.
  destruct (Z.eqb_spec (T * 12) 0) as [E | _]; [lia |].
  reflexivity.
Qed.

(** A term of zero years divides by zero on either branch. *)
Lemma calculate_mortgage_zero_term (P D R : float) :
  (forall x, float_pow x 0 = Return 1) ->
  calculate_mortgage float_pow P D R 0 = Raise ZeroDivisionError.
Proof.
  intros Hpow. unfold calculate_mortgage. simpl.
  destruct (0 <? R / 100 / 12).
  - rewrite Hpow. reflexivity.
  - reflexivity.
Qed.

Lemma calculate_mortgage_interest (P D R : float) (T : Z) (m : Mortgage) :
  calculate_mortgage float_pow P D R T = Return m ->
  loan_amount m = P - D
  /\ total_interest m = total_payment m - loan_amount m.
Proof.
  unfold calculate_mortgage.
  destruct (if 0 <? R / 100 / 12 then _ else _) as [mp | e]; simpl;
    [| discriminate].
  destruct (float_mul_int mp (T * 12)) as [tp | e]; simpl; [| discriminate].
  intros [= <-]. split; reflexivity.
Qed.
End MortgageFacts.

(** A down payment above the price is not rejected: the result is computed
    from the negative loan amount. *)
Lemma excessive_down_payment_is_accepted :
  (100000 <? 150000)%float = true
  /\ calculate_mortgage pow_by_multiplication 100000 150000 0 30
     = Return (straight_line (-50000)%float 360%float)
  /\ calculate_mortgage pow_by_multiplication 100000 0 0 (-5)
     = Return (straight_line 100000%float (-60)%float).
Proof. repeat split. Qed.

(** C3, as the code has it: nothing is validated.  A term of zero years
    fails, with [ZeroDivisionError]; when the monthly rate is not positive
    and the term is another number of years whose month count fits a double
    (negative terms and down payments above the price included) the
    straight-line result for the loan amount [P - D] is returned. *)
Theorem calculate_mortgage_validates_nothing
    (float_pow : float -> Z -> pyresult float) :
  (forall x, float_pow x 0 = Return 1%float) ->
  (forall P D R, calculate_mortgage float_pow P D R 0 = Raise ZeroDivisionError)
  /\ (forall P D R T n,
        (0 <? R / 100 / 12)%float = false ->
        T <> 0 ->
        float_of_int (T * 12) = Return n ->
        calculate_mortgage float_pow P D R T
        = Return (straight_line (P - D)%float n)).
Proof.
  intros Hpow. split.
  - intros P D R. now apply calculate_mortgage_zero_term.
  - intros P D R T n. apply calculate_mortgage_flat.
Qed.

Lemma calculate_mortgage_validates_nothing_witness :
  calculate_mortgage pow_by_multiplication 750000 150000 6.5 0
  = Raise ZeroDivisionError
  /\ calculate_mortgage pow_by_multiplication 100000 150000 0 30
     = Return (straight_line (100000 - 150000)%float 360%float).
Proof.
  destruct (calculate_mortgage_validates_nothing pow_by_multiplication)
    as [Hzero Hflat].
  - reflexivity.
  - split.
    + apply Hzero.
    + apply Hflat; [reflexivity | lia | reflexivity].
Defined.

(** With no interest the repaid total is the rounded product of the rounded
    monthly payment, and it need not come back to the loan amount. *)
Lemma zero_rate_interest_is_not_zero :
  calculate_mortgage pow_by_multiplication 100000 0 0 7
  = Return {| loan_amount := 100000;
              monthly_payment := 0x1.299e79e79e79ep+10;
              total_payment := 0x1.869ffffffffffp+16;
              total_interest := (-0x1p-36) |}
  /\ ((-0x1p-36) =? 0)%float = false
  /\ calculate_mortgage pow_by_multiplication 100000 0 0 (2 ^ 1024)
     = Raise OverflowError.
Proof. repeat split; vm_compute; reflexivity. Qed.

(** C9, as the code has it: with an annual rate of zero and a term [T > 0]
    whose month count [T * 12] fits a double [n], the result is returned
    with [monthly_payment] exactly the float quotient [(P - D) / n],
    [total_payment] the float product of that quotient and [n], and
    [total_interest] their float difference from the loan amount; and
    whenever a result is returned its [total_interest] is
    [total_payment - loan_amount]. *)
Theorem zero_rate_mortgage
    (float_pow : float -> Z -> pyresult float)
    (P D R : float) (T : Z) (n : float) :
  (R =? 0)%float = true ->
  0 < T ->
  float_of_int (T * 12) = Return n ->
  (exists m,
      calculate_mortgage float_pow P D R T = Return m
      /\ loan_amount m = (P - D)%float
      /\ monthly_payment m = ((P - D) / n)%float
      /\ total_payment m = (monthly_payment m * n)%float
      /\ total_interest m = (total_payment m - loan_amount m)%float)
  /\ (forall P' D' R' T' m',
        calculate_mortgage float_pow P' D' R' T' = Return m' ->
        total_interest m' = (total_payment m' - loan_amount m')%float).
Proof.
  intros HR HT Hn. split.
  - exists (straight_line (P - D)%float n). split; [| repeat split].
    apply calculate_mortgage_flat; [| lia | exact Hn].
    destruct (eqb_zero_cases R HR) as [-> | ->]; reflexivity.
  - intros P' D' R' T' m' H.
    now apply calculate_mortgage_interest in H.
Qed.

Lemma zero_rate_mortgage_witness :
  (exists m,
      calculate_mortgage pow_by_multiplication 1200 0 0 1 = Return m
      /\ loan_amount m = (1200 - 0)%float
      /\ monthly_payment m = ((1200 - 0) / 12)%float
      /\ total_payment m = (monthly_payment m * 12)%float
      /\ total_interest m = (total_payment m - loan_amount m)%float)
  /\ (forall P' D' R' T' m',
        calculate_mortgage pow_by_multiplication P' D' R' T' = Return m' ->
        total_interest m' = (total_payment m' - loan_amount m')%float).
Proof.
  apply (zero_rate_mortgage pow_by_multiplication 1200 0 0 1 12);
    [reflexivity | lia | reflexivity].
Defined.

(* ===================================================================== *)
(** ** The stable descending sort *)

Lemma In_firstn {A} (n : nat) (x : A) (l : list A) :
  List.In x (firstn n l) -> List.In x l.
Proof.
  revert n. induction l as [| y l IH]; intros [| n]; simpl; try tauto.
  intros [-> | H]; [now left | right; eauto].
Qed.


Section SortFacts.
Context {A : Type} (key : A -> Z).


Lemma insert_desc_perm (x : A) (l : list A) :
  Permutation (insert_desc key x l) (x :: l).
Proof.
  induction l as [| y l IH]; simpl; [reflexivity |].
  destruct (key x <? key y); [| reflexivity].
  rewrite IH. apply perm_swap.
Qed.

Lemma sort_desc_perm (l : list A) : Permutation (sort_desc key l) l.
Proof.
  induction l as [| x l IH]; simpl; [reflexivity |].
  now rewrite insert_desc_perm, IH.
Qed.

Lemma insert_desc_descending (x : A) (l : list A) :
  descending key l -> descending key (insert_desc key x l).
Proof.
  unfold descending. induction 1 as [| y l Hl IH Hy]; simpl.
  - repeat constructor.
  - destruct (Z.ltb_spec (key x) (key y)) as [Hlt | Hge].
    + constructor; [exact IH |].
      rewrite (insert_desc_perm x l). constructor; [lia | exact Hy].
    + constructor; [now constructor |].
      constructor; [lia |].
      eapply List.Forall_impl; [| exact Hy]. simpl. intros; lia.
Qed.

Lemma sort_desc_descending (l : list A) : descending key (sort_desc key l).
Proof.
  induction l as [| x l IH]; simpl.
  - constructor.
  - now apply insert_desc_descending.
Qed.




(** Descending order and stability leave no choice: whatever stable sort
    the interpreter runs, it returns this list. *)
Lemma stable_descending_unique (l1 l2 : list A) :
  descending key l1 -> descending key l2 ->
  (forall s, List.filter (with_key key s) l1 = List.filter (with_key key s) l2) ->
  l1 = l2.
Proof.
  unfold descending. intros H1. revert l2.
  induction H1 as [| x l1 Hl1 IH Hx]; intros l2 H2 Hsame.
  - destruct l2 as [| y l2]; [reflexivity |].
    specialize (Hsame (key y)). cbn in Hsame. unfold with_key in Hsame.
    now rewrite Z.eqb_refl in Hsame.
  - destruct H2 as [| y l2 Hl2 Hy].
    + specialize (Hsame (key x)). cbn in Hsame. unfold with_key in Hsame.
      now rewrite Z.eqb_refl in Hsame.
    + assert (key x = key y) as Hk.
      { assert (List.In x (y :: l2)) as Hxin.
        { eapply (proj1 (List.filter_In (with_key key (key x)) x (y :: l2))).
          rewrite <- Hsame. cbn. unfold with_key. rewrite Z.eqb_refl.
          now left. }
        assert (List.In y (x :: l1)) as Hyin.
        { eapply (proj1 (List.filter_In (with_key key (key y)) y (x :: l1))).
          rewrite Hsame. cbn. unfold with_key. rewrite Z.eqb_refl.
          now left. }
        rewrite List.Forall_forall in Hx, Hy.
        destruct Hxin as [-> | Hxin]; [reflexivity |].
        destruct Hyin as [-> | Hyin]; [reflexivity |].
        specialize (Hx _ Hyin). specialize (Hy _ Hxin). lia. }
      pose proof (Hsame (key x)) as Hhead. cbn in Hhead.
      unfold with_key in Hhead. rewrite <- Hk, Z.eqb_refl in Hhead.
      injection Hhead as -> Htail. f_equal.
      apply IH; [exact Hl2 |]. intros s.
      destruct (Z.eq_dec s (key y)) as [-> | Hs]; [exact Htail |].
      specialize (Hsame s). cbn in Hsame. unfold with_key in Hsame.
      destruct (Z.eqb_spec (key y) s); [congruence |]. exact Hsame.
Qed.
End SortFacts.

(* ===================================================================== *)
(** ** Scoring one property *)



(** A score that is returned is the sum of the weights of the satisfied
    preferences. *)
Lemma score_property_sum (preferences : gmap string pyval) (prop : Property)
    (s : Z) :
  score_property preferences prop = Return s ->
  s = weight 30 (type_preferred preferences prop)
      + weight 25 (bedrooms_preferred preferences prop)
      + weight 20 (city_preferred preferences prop)
      + weight 15 (price_preferred preferences prop).
Proof.
  unfold score_property, type_preferred, bedrooms_preferred, city_preferred,
    price_preferred.
  destruct (preferences !! "property_type") as [v1 |];
    [destruct (py_eq _ v1) |];
    (destruct (preferences !! "bedrooms") as [v2 |];
     [destruct (num_ge_val _ v2) as [[] | ?] |]; simpl; try discriminate);
    (destruct (preferences !! "city") as [v3 |];
     [destruct v3; simpl; try discriminate;
      destruct (str_contains _ _) |]; simpl);
    (destruct (preferences !! "max_price") as [v4 |];
     [destruct (num_le_val _ v4) as [[] | ?] |]; simpl; try discriminate);
    intros [= <-]; reflexivity.
Qed.

Lemma weight_bounds (points : Z) (earned : bool) :
  0 <= points -> 0 <= weight points earned <= points.
Proof. destruct earned; simpl; lia. Qed.


Lemma score_property_returns (preferences : gmap string pyval)
    (prop : Property) :
  preferences_typed preferences -> returns (score_property preferences prop).
Proof.
  intros (Hbed & Hcity & Hmax). unfold score_property, returns.
  destruct (preferences !! "bedrooms") as [v2 |] eqn:E2.
  - destruct (Hbed v2 eq_refl) as [n2 Hn2].
    unfold num_ge_val. rewrite Hn2. simpl.
    destruct (preferences !! "city") as [v3 |] eqn:E3.
    + destruct (Hcity v3 eq_refl) as [s ->]. simpl.
      destruct (preferences !! "max_price") as [v4 |] eqn:E4.
      * destruct (Hmax v4 eq_refl) as [n4 Hn4].
        unfold num_le_val. rewrite Hn4. simpl. eauto.
      * eauto.
    + simpl. destruct (preferences !! "max_price") as [v4 |] eqn:E4.
      * destruct (Hmax v4 eq_refl) as [n4 Hn4].
        unfold num_le_val. rewrite Hn4. simpl. eauto.
      * eauto.
  - simpl. destruct (preferences !! "city") as [v3 |] eqn:E3.
    + destruct (Hcity v3 eq_refl) as [s ->]. simpl.
      destruct (preferences !! "max_price") as [v4 |] eqn:E4.
      * destruct (Hmax v4 eq_refl) as [n4 Hn4].
        unfold num_le_val. rewrite Hn4. simpl. eauto.
      * eauto.
    + simpl. destruct (preferences !! "max_price") as [v4 |] eqn:E4.
      * destruct (Hmax v4 eq_refl) as [n4 Hn4].
        unfold num_le_val. rewrite Hn4. simpl. eauto.
      * eauto.
Qed.

(* ===================================================================== *)
(** ** The properties collected for one client *)


Lemma consider_cases (c : Client) (acc acc' : list scored) (prop : Property) :
  consider c acc prop = Return acc' ->
  acc' = acc
  \/ exists s, acc' = (acc ++ [(prop, s)])%list /\ accepted c (prop, s).
Proof.
  unfold consider, accepted.
  destruct (available prop) eqn:Ha; [| intros [= <-]; now left].
  destruct (fits_budget (budget c) prop) eqn:Hb; [| intros [= <-]; now left].
  destruct (score_property (preferences c) prop) as [s | e] eqn:Hs; simpl;
    [| discriminate].
  destruct (Z.leb_spec 40 s) as [Hge | Hlt]; intros [= <-]; [| now left].
  right. exists s. simpl. repeat split; assumption.
Qed.

Lemma for_each_consider (c : Client) (props : list Property) :
  forall acc0 acc,
    for_each (consider c) props acc0 = Return acc ->
    exists new,
      acc = (acc0 ++ new)%list
      /\ sublist (map fst new) props
      /\ Forall (accepted c) new.
Proof.
  induction props as [| prop props IH]; intros acc0 acc; simpl.
  - intros [= <-]. exists []. rewrite app_nil_r.
    repeat split; constructor.
  - destruct (consider c acc0 prop) as [acc1 |] eqn:Hstep; simpl;
      [| discriminate].
    intros Hrest. destruct (IH _ _ Hrest) as (new & -> & Hsub & Hall).
    destruct (consider_cases _ _ _ _ Hstep) as [-> | (s & -> & Hacc)].
    + exists new. repeat split; [now apply sublist_cons | exact Hall].
    + exists ((prop, s) :: new). rewrite <- app_assoc. simpl.
      repeat split; [now apply sublist_skip | now constructor].
Qed.

Lemma suitable_properties_spec (c : Client) (props : list Property)
    (suitable : list scored) :
  suitable_properties c props = Return suitable ->
  sublist (map fst suitable) props /\ Forall (accepted c) suitable.
Proof.
  intros H. destruct (for_each_consider _ _ _ _ H) as (new & -> & ? & ?).
  now split.
Qed.

Lemma suitable_properties_returns (c : Client) (props : list Property) :
  preferences_typed (preferences c) -> returns (suitable_properties c props).
Proof.
  intros Hty. unfold suitable_properties. generalize (@nil scored).
  induction props as [| prop props IH]; intros acc; simpl.
  - now exists acc.
  - assert (returns (consider c acc prop)) as [acc' ->]; [| apply IH].
    unfold consider, returns.
    destruct (available prop); [| eauto].
    destruct (fits_budget (budget c) prop); [| eauto].
    destruct (score_property_returns _ prop Hty) as [s ->]. simpl. eauto.
Qed.

(* ===================================================================== *)
(** ** The returned mapping *)


Lemma In_top_matches (e : scored) (suitable : list scored) :
  List.In e (top_matches suitable) -> List.In e suitable.
Proof.
  unfold top_matches. intros H. apply In_firstn in H.
  exact (Permutation_in e (sort_desc_perm match_score suitable) H).
Qed.


Lemma match_client_cases (props : list Property)
    (matches matches' : Dict.t (list scored)) (c : Client) :
  match_client props matches c = Return matches' ->
  (client_type c <> BUYER /\ matches' = matches)
  \/ exists lst, list_of props c lst
                 /\ matches' = Dict.setitem (client_id c) lst matches.
Proof.
  unfold match_client, list_of.
  destruct (client_type c) eqn:Hty; simpl;
    try (intros [= <-]; left; split; [discriminate | reflexivity]).
  destruct (suitable_properties c props) as [suitable |] eqn:Hs; simpl;
    [| discriminate].
  intros [= <-]. right. eexists. split; [| reflexivity]. eauto.
Qed.

(** Every entry of the result was written for a buyer of the collection,
    under that buyer's identifier. *)
Lemma for_each_match_entries (props : list Property) (cs : list Client) :
  forall matches0 matches,
    for_each (match_client props) cs matches0 = Return matches ->
    forall cid lst,
      List.In (cid, lst) matches ->
      List.In (cid, lst) matches0
      \/ exists c, List.In c cs /\ client_id c = cid /\ list_of props c lst.
Proof.
  induction cs as [| c cs IH]; intros matches0 matches; simpl.
  - intros [= <-] cid lst H. now left.
  - destruct (match_client props matches0 c) as [matches1 |] eqn:Hstep;
      simpl; [| discriminate].
    intros Hrest cid lst Hin.
    destruct (IH _ _ Hrest _ _ Hin) as [Hin1 | (c' & ? & ? & ?)];
      [| right; exists c'; auto].
    destruct (match_client_cases _ _ _ _ Hstep) as [[_ ->] | (l & Hl & ->)];
      [now left |].
    destruct (Dict_In_setitem _ _ _ _ _ Hin1) as [[-> ->] | ?];
      [right; exists c; auto | now left].
Qed.

Lemma match_entries (self : System) (matches : Dict.t (list scored))
    (cid : string) (lst : list scored) :
  match_clients_to_properties self = Return matches ->
  List.In (cid, lst) matches ->
  exists c, List.In c (Dict.values (clients self))
            /\ client_id c = cid
            /\ list_of (Dict.values (properties self)) c lst.
Proof.
  intros H Hin.
  destruct (for_each_match_entries _ _ _ _ H _ _ Hin) as [[] | ?]; assumption.
Qed.

(** Later clients with other identifiers leave an entry alone. *)
Lemma for_each_match_get_other (props : list Property) (cs : list Client)
    (cid : string) :
  ~ List.In cid (map client_id cs) ->
  forall matches0 matches,
    for_each (match_client props) cs matches0 = Return matches ->
    Dict.get cid matches = Dict.get cid matches0.
Proof.
  induction cs as [| c cs IH]; simpl; intros Hnot matches0 matches.
  - now intros [= <-].
  - destruct (match_client props matches0 c) as [matches1 |] eqn:Hstep;
      simpl; [| discriminate].
    intros Hrest. rewrite (IH ltac:(tauto) _ _ Hrest).
    destruct (match_client_cases _ _ _ _ Hstep) as [[_ ->] | (l & _ & ->)];
      [reflexivity |].
    apply Dict_get_setitem_ne. intros ->. tauto.
Qed.

(** With identifiers that are unique, a buyer's entry is the buyer's list. *)
Lemma for_each_match_get (props : list Property) (cs : list Client) :
  List.NoDup (map client_id cs) ->
  forall matches0 matches c,
    for_each (match_client props) cs matches0 = Return matches ->
    List.In c cs ->
    client_type c = BUYER ->
    exists lst, Dict.get (client_id c) matches = Some lst
                /\ list_of props c lst.
Proof.
  induction cs as [| c0 cs IH]; simpl; intros Hnd matches0 matches c;
    [intros _ [] |].
  apply List.NoDup_cons_iff in Hnd as [Hfresh Hnd].
  destruct (match_client props matches0 c0) as [matches1 |] eqn:Hstep;
    simpl; [| discriminate].
  intros Hrest [-> | Hin] Hbuyer; [| now apply (IH Hnd _ _ _ Hrest)].
  rewrite (for_each_match_get_other _ _ _ Hfresh _ _ Hrest).
  destruct (match_client_cases _ _ _ _ Hstep) as [[Hno _] | (l & Hl & ->)];
    [contradiction |].
  exists l. split; [apply Dict_get_setitem_eq | exact Hl].
Qed.

(** The method returns when the buyers' preferences have the types its
    comparisons need. *)
Lemma match_clients_to_properties_returns (self : System) :
  (forall c, List.In c (Dict.values (clients self)) ->
             client_type c = BUYER -> preferences_typed (preferences c)) ->
  returns (match_clients_to_properties self).
Proof.
  unfold match_clients_to_properties. generalize (@nil (string * list scored)).
  induction (Dict.values (clients self)) as [| c cs IH]; intros acc Hty;
    simpl.
  - now exists acc.
  - assert (returns (match_client (Dict.values (properties self)) acc c))
      as [acc' ->].
    { unfold match_client, returns.
      destruct (client_type c) eqn:E; simpl; eauto.
      destruct (suitable_properties_returns c (Dict.values (properties self)))
        as [s ->]; [apply Hty; [now left | exact E] | simpl; eauto]. }
    simpl. apply IH. intros c' Hin. apply Hty. now right.
Qed.

(* ===================================================================== *)
(** ** What [match_clients_to_properties] returns *)


Example thrifty_client_scores_90 :
  score_property (preferences thrifty_client) sample_property_1 = Return 90
  /\ match_clients_to_properties thrifty_system
     = Return [("CLI0002", @nil scored)].
Proof. split; vm_compute; reflexivity. Qed.

(** Equal scores keep the order of the collection, and the sixth accepted
    listing (score 50) is cut off. *)
Example ties_keep_collection_order :
  match_clients_to_properties busy_system = Return busy_matches.
Proof. vm_compute. reflexivity. Qed.

Example sample_client_scores_75 :
  match_clients_to_properties sample_system
  = Return [("CLI0001", [(sample_property_1, 75)])].
Proof. vm_compute. reflexivity. Qed.

(** Whatever the identifiers, every returned pair was admitted by the loop
    for a buyer stored in the collection under the list's key: the property
    is available, within 110% of that buyer's budget, and carries the score
    computed from that buyer's preferences. *)
Lemma returned_pairs_were_accepted
    (self : System) (matches : Dict.t (list scored))
    (cid : string) (lst : list scored) (e : scored) :
  match_clients_to_properties self = Return matches ->
  List.In (cid, lst) matches ->
  List.In e lst ->
  exists c,
    List.In c (Dict.values (clients self))
    /\ client_type c = BUYER
    /\ client_id c = cid
    /\ accepted c e.
Proof.
  intros Hret Hin Hmem.
  destruct (match_entries _ _ _ _ Hret Hin)
    as (c & Hc & Hid & Hbuyer & suitable & Hs & ->).
  apply In_top_matches in Hmem.
  apply suitable_properties_spec in Hs as [_ Hall].
  rewrite List.Forall_forall in Hall.
  exists c. repeat split; try assumption; now apply Hall.
Qed.

(** C4: with unique client identifiers, a property whose price exceeds
    [budget * 1.1] of a buyer is in no pair of that buyer's list, whatever
    its score would be. *)
Theorem unaffordable_property_is_never_matched
    (self : System) (matches : Dict.t (list scored))
    (c : Client) (prop : Property) :
  List.NoDup (map client_id (Dict.values (clients self))) ->
  match_clients_to_properties self = Return matches ->
  List.In c (Dict.values (clients self)) ->
  client_type c = BUYER ->
  (budget c * float_1_1 <? price prop)%float = true ->
  exists lst,
    Dict.get (client_id c) matches = Some lst
    /\ forall score, ~ List.In (prop, score) lst.
Proof.
  intros Hnd Hret Hin Hbuyer Hover.
  destruct (for_each_match_get _ _ Hnd _ _ _ Hret Hin Hbuyer)
    as (lst & Hget & _ & suitable & Hs & ->).
  exists (top_matches suitable). split; [exact Hget |].
  intros score Hmem. apply In_top_matches in Hmem.
  apply suitable_properties_spec in Hs as [_ Hall].
  rewrite List.Forall_forall in Hall.
  destruct (Hall _ Hmem) as (_ & Hfit & _).
  unfold fits_budget in Hfit. simpl in Hfit.
  apply ltb_true_leb_false in Hover. congruence.
Qed.

Lemma unaffordable_property_is_never_matched_witness :
  exists lst,
    Dict.get (client_id thrifty_client) [("CLI0002", @nil scored)] = Some lst
    /\ forall score, ~ List.In (sample_property_1, score) lst.
Proof.
  apply (unaffordable_property_is_never_matched thrifty_system).
  - simpl. constructor; [simpl; tauto | constructor].
  - vm_compute. reflexivity.
  - simpl. now left.
  - reflexivity.
  - reflexivity.
Defined.



(** C10: every returned score is the sum of some of the weights 30, 25, 20
    and 15, and lies between 40 and 90. *)
Theorem returned_scores_are_weight_sums
    (self : System) (matches : Dict.t (list scored))
    (cid : string) (lst : list scored) (prop : Property) (score : Z) :
  match_clients_to_properties self = Return matches ->
  List.In (cid, lst) matches ->
  List.In (prop, score) lst ->
  (exists b30 b25 b20 b15 : bool,
      score = weight 30 b30 + weight 25 b25 + weight 20 b20 + weight 15 b15)
  /\ 40 <= score <= 90.
Proof.
  intros Hret Hin Hmem.
  destruct (match_entries _ _ _ _ Hret Hin)
    as (c & _ & _ & _ & suitable & Hs & ->).
  apply In_top_matches in Hmem.
  apply suitable_properties_spec in Hs as [_ Hall].
  rewrite List.Forall_forall in Hall.
  destruct (Hall _ Hmem) as (_ & _ & Hscore & Hmin). simpl in Hscore, Hmin.
  apply score_property_sum in Hscore.
  split; [rewrite Hscore; eauto |].
  pose proof (weight_bounds 30 (type_preferred (preferences c) prop)).
  pose proof (weight_bounds 25 (bedrooms_preferred (preferences c) prop)).
  pose proof (weight_bounds 20 (city_preferred (preferences c) prop)).
  pose proof (weight_bounds 15 (price_preferred (preferences c) prop)).
  lia.
Qed.

Lemma returned_scores_are_weight_sums_witness :
  (exists b30 b25 b20 b15 : bool,
      75 = weight 30 b30 + weight 25 b25 + weight 20 b20 + weight 15 b15)
  /\ 40 <= 75 <= 90.
Proof.
  apply (returned_scores_are_weight_sums sample_system
           [("CLI0001", [(sample_property_1, 75)])]
           "CLI0001" [(sample_property_1, 75)] sample_property_1 75).
  - vm_compute. reflexivity.
  - simpl. now left.
  - simpl. now left.
Defined.

(* ===================================================================== *)
(** ** The price range of the interactive search *)


Lemma filter_raising_in_price_range
    (lo hi : pyval) (a b : pynum) (results : list Property) :
  as_num lo = Some a ->
  as_num hi = Some b ->
  filter_raising (in_price_range lo hi) results
  = Return (List.filter (within a b) results).
Proof.
  intros Ha Hb. induction results as [| p results IH]; [reflexivity |].
  cbn [filter_raising List.filter]. rewrite IH.
  unfold in_price_range, val_le_num, num_le_val, within.
  rewrite Ha, Hb. simpl.
  destruct (num_le a (NFloat (price p))); simpl; [| reflexivity].
  now destruct (num_le (NFloat (price p)) b).
Qed.

Lemma SFcompare_self (x : spec_float) :
  x <> S754_nan -> SFcompare x x = Some Eq.
Proof.
  destruct x as [s | s | | s m e]; simpl; intros Hx.
  - reflexivity.
  - now destruct s.
  - contradiction.
  - rewrite Z.compare_refl.
    assert (Pos.compare_cont Eq m m = Eq) as ->
      by (change (Pos.compare m m = Eq); apply Pos.compare_refl).
    now destruct s.
Qed.

(** A price that is ordered against a bound is not a NaN. *)
Lemma num_le_price_refl_l (x : float) (b : pynum) :
  num_le (NFloat x) b = true -> num_le (NFloat x) (NFloat x) = true.
Proof.
  destruct b as [z | y]; simpl.
  - unfold float_compare_int. rewrite FloatAxioms.leb_spec. unfold SFleb.
    intros H. rewrite SFcompare_self; [reflexivity |].
    intros E. rewrite E in H. discriminate.
  - apply leb_true_refl_l.
Qed.

Lemma num_le_price_refl_r (x : float) (a : pynum) :
  num_le a (NFloat x) = true -> num_le (NFloat x) (NFloat x) = true.
Proof.
  destruct a as [z | y]; simpl.
  - unfold float_compare_int. rewrite FloatAxioms.leb_spec. unfold SFleb.
    intros H. rewrite SFcompare_self; [reflexivity |].
    intros E. rewrite E in H. discriminate.
  - apply leb_true_refl_r.
Qed.

Section InteractiveFacts.
Variable parse_int : string -> pyresult Z.
Variable parse_float : string -> pyresult float.

Local Abbreviation read_field := (read_field parse_int parse_float).
Local Abbreviation read_criteria :=
  (read_criteria parse_int parse_float).


(** A field other than the two bounds leaves the range alone. *)
Lemma read_field_plain (answer : string -> string) (criteria : Dict.t pyval)
    (field : string) :
  String.eqb field "min_price" = false ->
  String.eqb field "max_price" = false ->
  field <> "price_range" ->
  (String.eqb field "bedrooms" = true -> bedrooms_answer_ok parse_int (answer field)) ->
  exists criteria',
    read_field answer criteria field = Return criteria'
    /\ Dict.get "price_range" criteria' = Dict.get "price_range" criteria.
Proof.
  intros Hmin Hmax Hne Hbed. unfold read_field.
  destruct (is_empty (answer field)) eqn:Hempty; [eauto |].
  destruct (String.eqb field "bedrooms") eqn:Hb.
  - destruct (Hbed eq_refl) as [E | [n ->]]; [congruence |].
    simpl. eexists. split; [reflexivity |].
    apply Dict_get_setitem_ne. congruence.
  - rewrite Hmin, Hmax. simpl. eexists. split; [reflexivity |].
    apply Dict_get_setitem_ne. congruence.
Qed.

Lemma read_field_min (answer : string -> string) (criteria : Dict.t pyval)
    (lo : option float) :
  bound_answer parse_float (answer "min_price") = Return lo ->
  Dict.get "price_range" criteria = None ->
  exists criteria',
    read_field answer criteria "min_price" = Return criteria'
    /\ Dict.get "price_range" criteria'
       = match lo with
         | Some f => Some (VTuple [VFloat f; VFloat infinity])
         | None => None
         end.
Proof.
  unfold bound_answer, read_field. intros Hlo Hnone.
  destruct (is_empty (answer "min_price")).
  - injection Hlo as <-. eauto.
  - destruct (parse_float (answer "min_price")) as [f |]; [| discriminate].
    injection Hlo as <-. cbn [String.eqb Ascii.eqb Bool.eqb orb bind].
    rewrite Hnone. unfold Dict.getitem. rewrite Dict_get_setitem_eq.
    cbn. eexists. split; [reflexivity |]. apply Dict_get_setitem_eq.
Qed.

Lemma read_field_max (answer : string -> string) (criteria : Dict.t pyval)
    (lo hi : option float) :
  bound_answer parse_float (answer "max_price") = Return hi ->
  Dict.get "price_range" criteria
  = match lo with
    | Some f => Some (VTuple [VFloat f; VFloat infinity])
    | None => None
    end ->
  exists criteria',
    read_field answer criteria "max_price" = Return criteria'
    /\ Dict.get "price_range" criteria'
       = match lo, hi with
         | None, None => None
         | _, _ =>
             Some (VTuple
                     [match lo with Some f => VFloat f | None => VInt 0 end;
                      VFloat (match hi with Some f => f | None => infinity end)])
         end.
Proof.
  unfold bound_answer, read_field. intros Hhi Hrange.
  destruct (is_empty (answer "max_price")).
  - injection Hhi as <-. exists criteria. split; [reflexivity |].
    now destruct lo.
  - destruct (parse_float (answer "max_price")) as [f |]; [| discriminate].
    injection Hhi as <-. cbn [String.eqb Ascii.eqb Bool.eqb orb].
    rewrite Hrange. unfold Dict.getitem. rewrite Dict_get_setitem_eq.
    destruct lo; cbn; (eexists; split; [reflexivity |]);
      apply Dict_get_setitem_eq.
Qed.

(** The criteria after the six prompts: the range is absent when neither
    bound was typed, and otherwise holds the typed bounds with 0 for a
    missing minimum and infinity for a missing maximum. *)
Lemma read_criteria_range (answer : string -> string) (lo hi : option float) :
  bedrooms_answer_ok parse_int (answer "bedrooms") ->
  bound_answer parse_float (answer "min_price") = Return lo ->
  bound_answer parse_float (answer "max_price") = Return hi ->
  exists criteria,
    read_criteria answer = Return criteria
    /\ Dict.get "price_range" criteria
       = match lo, hi with
         | None, None => None
         | _, _ =>
             Some (VTuple
                     [match lo with Some f => VFloat f | None => VInt 0 end;
                      VFloat (match hi with Some f => f | None => infinity end)])
         end.
Proof.
  intros Hbed Hlo Hhi. unfold read_criteria, fields. cbn [for_each].
  destruct (read_field_plain answer [] "city") as (c1 & -> & E1);
    [reflexivity | reflexivity | discriminate | discriminate |].
  cbn [bind].
  destruct (read_field_plain answer c1 "property_type") as (c2 & -> & E2);
    [reflexivity | reflexivity | discriminate | discriminate |].
  cbn [bind].
  destruct (read_field_plain answer c2 "status") as (c3 & -> & E3);
    [reflexivity | reflexivity | discriminate | discriminate |].
  cbn [bind].
  destruct (read_field_plain answer c3 "bedrooms") as (c4 & -> & E4);
    [reflexivity | reflexivity | discriminate | intros _; exact Hbed |].
  cbn [bind].
  assert (Dict.get "price_range" c4 = None) as E
    by (rewrite E4, E3, E2, E1; reflexivity).
  destruct (read_field_min answer c4 lo Hlo E) as (c5 & -> & E5).
  cbn [bind].
  destruct (read_field_max answer c5 lo hi Hhi E5) as (c6 & -> & E6).
  cbn [bind]. exists c6. split; [reflexivity | exact E6].
Qed.
End InteractiveFacts.


Example minimum_price_is_inclusive :
  search_properties_interactive int_of_nothing float_of_5000
    sample_system only_min_price
  = Return [sample_property_1; sample_property_2]
  /\ price sample_property_2 = 5000%float.
Proof. split; vm_compute; reflexivity. Qed.

(** C8: over any records and numeric bounds the comprehension keeps, in
    order, exactly the records whose price [v] satisfies [min <= v <= max];
    and when the prompts are answered with texts that [int] and [float]
    accept, the interactive search returns the records found by the other
    criteria, filtered so if a bound was typed, where a missing minimum is 0
    and a missing maximum is infinity; a record priced exactly at the typed
    minimum or maximum (and within the other bound) is kept. *)
Theorem price_range_filter_is_inclusive
    (parse_int : string -> pyresult Z)
    (parse_float : string -> pyresult float)
    (self : System) (answer : string -> string) (lo hi : option float) :
  bedrooms_answer_ok parse_int (answer "bedrooms") ->
  bound_answer parse_float (answer "min_price") = Return lo ->
  bound_answer parse_float (answer "max_price") = Return hi ->
  (forall (records : list Property) (min_price max_price : pyval) a b,
      as_num min_price = Some a ->
      as_num max_price = Some b ->
      filter_raising (in_price_range min_price max_price) records
      = Return (List.filter (within a b) records))
  /\ exists criteria,
    read_criteria parse_int parse_float answer = Return criteria
    /\ let found := search_properties self (without_price_bounds criteria) in
       let min_price := match lo with Some f => NFloat f | None => NInt 0 end in
       let max_price :=
         NFloat (match hi with Some f => f | None => infinity end) in
       let results :=
         match lo, hi with
         | None, None => found
         | _, _ => List.filter (within min_price max_price) found
         end in
       search_properties_interactive parse_int parse_float self answer
       = Return results
       /\ (forall p, List.In p found -> lo = Some (price p) ->
                     num_le (NFloat (price p)) max_price = true ->
                     List.In p results)
       /\ (forall p, List.In p found -> hi = Some (price p) ->
                     num_le min_price (NFloat (price p)) = true ->
                     List.In p results).
Proof.
  intros Hbed Hlo Hhi.
  split; [intros; now apply filter_raising_in_price_range |].
  destruct (read_criteria_range parse_int parse_float answer lo hi Hbed Hlo Hhi)
    as (criteria & Hread & Hrange).
  exists criteria. split; [exact Hread |].
  cbv zeta. split; [| split].
  - unfold search_properties_interactive. rewrite Hread. cbn [bind].
    unfold Dict.contains, Dict.getitem. rewrite Hrange.
    destruct lo as [l |], hi as [h |]; cbn [bind unpack2 fst snd];
      try reflexivity;
      now apply filter_raising_in_price_range.
  - intros p Hp -> Hmax. apply List.filter_In. split; [exact Hp |].
    unfold within. rewrite Hmax, andb_true_r.
    now apply num_le_price_refl_l in Hmax.
  - intros p Hp -> Hmin.
    assert (List.In p (List.filter
                         (within match lo with
                                 | Some f => NFloat f
                                 | None => NInt 0
                                 end (NFloat (price p)))
                         (search_properties self
                            (without_price_bounds criteria)))) as Hin.
    { apply List.filter_In. split; [exact Hp |].
      unfold within. rewrite Hmin. simpl andb.
      now apply num_le_price_refl_r in Hmin. }
    now destruct lo.
Qed.

Lemma price_range_filter_is_inclusive_witness :
  (forall (records : list Property) (min_price max_price : pyval) a b,
      as_num min_price = Some a ->
      as_num max_price = Some b ->
      filter_raising (in_price_range min_price max_price) records
      = Return (List.filter (within a b) records))
  /\ exists criteria,
    read_criteria int_of_nothing float_of_5000 only_min_price = Return criteria
    /\ let found :=
         search_properties sample_system (without_price_bounds criteria) in
       let min_price := NFloat 5000%float in
       let max_price := NFloat infinity in
       let results := List.filter (within min_price max_price) found in
       search_properties_interactive int_of_nothing float_of_5000
         sample_system only_min_price
       = Return results
       /\ (forall p, List.In p found -> Some 5000%float = Some (price p) ->
                     num_le (NFloat (price p)) max_price = true ->
                     List.In p results)
       /\ (forall p, List.In p found -> @None float = Some (price p) ->
                     num_le min_price (NFloat (price p)) = true ->
                     List.In p results).
Proof.
  apply (price_range_filter_is_inclusive int_of_nothing float_of_5000
           sample_system only_min_price (Some 5000%float) None).
  - left. reflexivity.
  - reflexivity.
  - reflexivity.
Defined.

(* ===================================================================== *)
(** * Further properties *)

(** ** Searching *)

Lemma criteria_match_forallb (prop : Property) (criteria : Dict.t pyval) :
  criteria_match prop criteria
  = forallb (fun kv => criterion_holds prop (fst kv) (snd kv)) criteria.
Proof.
  induction criteria as [| [key value] rest IH]; simpl; [reflexivity |].
  rewrite IH. now destruct (criterion_holds prop key value).
Qed.

Lemma forallb_Permutation {A} (f : A -> bool) (l l' : list A) :
  Permutation l l' -> forallb f l = forallb f l'.
Proof.
  induction 1 as [| x l l' _ IH | x y l | l l' l'' _ IH1 _ IH2]; simpl.
  - reflexivity.
  - now rewrite IH.
  - now destruct (f x), (f y).
  - congruence.
Qed.

(** X1: the order in which the keyword arguments are given does not change
    what a search returns. *)
Theorem search_ignores_criteria_order
    (self : System) (criteria criteria' : Dict.t pyval) :
  Permutation criteria criteria' ->
  search_properties self criteria = search_properties self criteria'.
Proof.
  intros Hperm. unfold search_properties. apply List.filter_ext.
  intros prop. rewrite !criteria_match_forallb.
  now apply forallb_Permutation.
Qed.

Lemma search_ignores_criteria_order_witness :
  search_properties sample_system [("city", VStr "new"); ("bedrooms", VInt 3)]
  = search_properties sample_system [("bedrooms", VInt 3); ("city", VStr "new")].
Proof.
  apply search_ignores_criteria_order. apply perm_swap.
Defined.

Lemma sublist_filter {A} (f : A -> bool) (l : list A) :
  sublist (List.filter f l) l.
Proof.
  induction l as [| x l IH]; simpl; [constructor |].
  destruct (f x); [now apply sublist_skip | now apply sublist_cons].
Qed.

Lemma filter_filter {A} (f g : A -> bool) (l : list A) :
  List.filter g (List.filter f l) = List.filter (fun x => f x && g x) l.
Proof.
  induction l as [| x l IH]; simpl; [reflexivity |].
  destruct (f x); simpl; [destruct (g x) |]; now rewrite IH.
Qed.

(** X2: further criteria only narrow a search: searching with two groups of
    criteria is searching with the first and filtering the result by the
    second, so the result is a part, in the same order, of the result
    without them and of the whole collection. *)
Theorem search_narrows (self : System) (criteria more : Dict.t pyval) :
  search_properties self (criteria ++ more)%list
  = List.filter (fun prop => criteria_match prop more)
                (search_properties self criteria)
  /\ sublist (search_properties self (criteria ++ more)%list)
             (search_properties self criteria)
  /\ sublist (search_properties self criteria)
             (Dict.values (properties self)).
Proof.
  assert (search_properties self (criteria ++ more)%list
          = List.filter (fun prop => criteria_match prop more)
                        (search_properties self criteria)) as E.
  { unfold search_properties. rewrite filter_filter.
    apply List.filter_ext. intros prop. apply criteria_match_app. }
  split; [exact E |]. split.
  - rewrite E. apply sublist_filter.
  - apply sublist_filter.
Qed.

Lemma criterion_type_mismatch_fails
    (prop : Property) (key : string) (value : pyval) :
  criterion_type_mismatch key value = true ->
  criterion_holds prop key value = false.
Proof.
  unfold criterion_type_mismatch, criterion_holds, Property_getattr.
  destruct value; try discriminate; simpl; intros H.
  - repeat match type of H with
           | (String.eqb key ?f || _) = true =>
               apply orb_true_iff in H as [H | H];
               [apply String.eqb_eq in H; subst key; reflexivity |]
           end.
    discriminate.
  - apply orb_true_iff in H as [H | H];
      apply String.eqb_eq in H; subst key; simpl; now destruct t.
  - apply orb_true_iff in H as [H | H];
      apply String.eqb_eq in H; subst key; simpl; now destruct s.
Qed.

(** X3: a criterion of the wrong kind finds nothing, whatever the other
    criteria are: a text for [price], [bedrooms], [bathrooms],
    [square_feet] or [year_built] (a typed number has to be converted
    first), and an enum member for [status] or [property_type] (only the
    member's text matches). *)
Theorem mismatched_criterion_finds_nothing
    (self : System) (before after : Dict.t pyval)
    (key : string) (value : pyval) :
  criterion_type_mismatch key value = true ->
  search_properties self (before ++ (key, value) :: after)%list = [].
Proof.
  intros Hbad. unfold search_properties.
  induction (Dict.values (properties self)) as [| prop l IH]; simpl;
    [reflexivity |].
  rewrite criteria_match_app. simpl.
  rewrite (criterion_type_mismatch_fails prop key value Hbad).
  now rewrite andb_false_r.
Qed.

Lemma mismatched_criterion_finds_nothing_witness :
  search_properties sample_system
    ([("city", VStr "new")] ++ ("bedrooms", VStr "3") :: [])%list = []
  /\ search_properties sample_system
       ([] ++ ("status", VPropertyStatus FOR_SALE) :: [])%list = [].
Proof.
  split; apply mismatched_criterion_finds_nothing; reflexivity.
Defined.

(** X4: searching [status] or [property_type] by the full text of a member,
    in any case, returns exactly the records with that member, in the
    collection's order: no member's text occurs inside another's. *)
Theorem search_by_member_text (self : System) (text : string) :
  (forall s, lower text = lower (PropertyStatus_value s) ->
     search_properties self [("status", VStr text)]
     = List.filter (fun prop => PropertyStatus_eqb (status prop) s)
                   (Dict.values (properties self)))
  /\ (forall t, lower text = lower (PropertyType_value t) ->
        search_properties self [("property_type", VStr text)]
        = List.filter (fun prop => PropertyType_eqb (property_type prop) t)
                      (Dict.values (properties self))).
Proof.
  split; intros m Hm; unfold search_properties; apply List.filter_ext;
    intros prop; simpl; unfold criterion_holds; simpl; rewrite Hm.
  - now destruct (status prop), m.
  - now destruct (property_type prop), m.
Qed.

Lemma search_by_member_text_witness :
  search_properties sample_system [("status", VStr "for sale")]
  = List.filter (fun prop => PropertyStatus_eqb (status prop) FOR_SALE)
                (Dict.values (properties sample_system))
  /\ search_properties sample_system [("property_type", VStr "COMMERCIAL")]
     = List.filter (fun prop => PropertyType_eqb (property_type prop) COMMERCIAL)
                   (Dict.values (properties sample_system)).
Proof.
  destruct (search_by_member_text sample_system "for sale") as [Hs _].
  destruct (search_by_member_text sample_system "COMMERCIAL") as [_ Ht].
  split; [apply Hs | apply Ht]; reflexivity.
Defined.

(* ===================================================================== *)
(** ** Matching *)

Lemma Dict_get_None_keys {V} (k : string) (d : Dict.t V) :
  Dict.get k d = None <-> ~ List.In k (Dict.keys d).
Proof.
  induction d as [| [k' v] d IH]; simpl; [tauto |].
  destruct (String.eqb_spec k k') as [-> | Hne].
  - split; [discriminate | intros H; exfalso; apply H; now left].
  - rewrite IH. split; [intros H [E | Hin]; [congruence | tauto] | tauto].
Qed.

Lemma Dict_keys_setitem_absent {V} (k : string) (v : V) (d : Dict.t V) :
  Dict.get k d = None ->
  Dict.keys (Dict.setitem k v d) = (Dict.keys d ++ [k])%list.
Proof.
  induction d as [| [k' v'] d IH]; simpl; [reflexivity |].
  destruct (String.eqb k k'); [discriminate |].
  intros H. unfold Dict.keys in *. simpl. f_equal. now apply IH.
Qed.

Lemma for_each_match_keys (props : list Property) (cs : list Client) :
  forall matches0 matches,
    List.NoDup (Dict.keys matches0 ++ map client_id cs)%list ->
    for_each (match_client props) cs matches0 = Return matches ->
    Dict.keys matches
    = (Dict.keys matches0 ++ map client_id (List.filter is_buyer cs))%list.
Proof.
  induction cs as [| c cs IH]; intros matches0 matches Hnd; simpl.
  - intros [= <-]. now rewrite app_nil_r.
  - destruct (match_client props matches0 c) as [matches1 |] eqn:Hstep;
      simpl; [| discriminate].
    intros Hrest.
    simpl in Hnd. pose proof (List.NoDup_remove _ _ _ Hnd) as [Hnd' Hfresh].
    destruct (match_client_cases _ _ _ _ Hstep)
      as [[Hno ->] | (l & [Hbuyer _] & ->)].
    + assert (is_buyer c = false) as ->
        by (unfold is_buyer; now destruct (client_type c)).
      now apply IH.
    + assert (is_buyer c = true) as -> by (unfold is_buyer; now rewrite Hbuyer).
      assert (Dict.get (client_id c) matches0 = None) as Habsent.
      { apply Dict_get_None_keys. intros Hin. apply Hfresh.
        apply List.in_or_app. now left. }
      assert (Dict.keys (Dict.setitem (client_id c) l matches0)
              = (Dict.keys matches0 ++ [client_id c])%list) as Hkeys
        by now apply Dict_keys_setitem_absent.
      rewrite (IH _ _) with (2 := Hrest).
      * rewrite Hkeys, <- app_assoc. reflexivity.
      * rewrite Hkeys, <- app_assoc. exact Hnd.
Qed.

(** X5: with unique client identifiers, the returned mapping has exactly one
    entry per buyer, in the order of the collection, and none for a client
    of another type. *)
Theorem one_entry_per_buyer
    (self : System) (matches : Dict.t (list scored)) :
  List.NoDup (map client_id (Dict.values (clients self))) ->
  match_clients_to_properties self = Return matches ->
  Dict.keys matches
  = map client_id (List.filter is_buyer (Dict.values (clients self))).
Proof.
  intros Hnd Hret.
  now apply (for_each_match_keys _ _ [] matches Hnd) in Hret.
Qed.

Lemma one_entry_per_buyer_witness :
  Dict.keys [("CLI0001", [(sample_property_1, 75)]); ("CLI0002", @nil scored)]
  = map client_id (List.filter is_buyer (Dict.values (clients mixed_system))).
Proof.
  apply (one_entry_per_buyer mixed_system).
  - simpl. repeat constructor; simpl; intuition discriminate.
  - vm_compute. reflexivity.
Defined.

Lemma sublist_In {A} (x : A) (l1 l2 : list A) :
  sublist l1 l2 -> List.In x l1 -> List.In x l2.
Proof.
  induction 1 as [| y l1 l2 _ IH | y l1 l2 _ IH]; simpl.
  - tauto.
  - intros [-> | H]; [now left | right; auto].
  - intros H. right. auto.
Qed.

(** X6: every returned pair holds a property of the collection that is for
    sale or pending and satisfies at least two of the buyer's preferences:
    no single weight reaches the threshold of 40. *)
Theorem returned_property_satisfies_two_preferences
    (self : System) (matches : Dict.t (list scored))
    (cid : string) (lst : list scored) (prop : Property) (score : Z) :
  match_clients_to_properties self = Return matches ->
  List.In (cid, lst) matches ->
  List.In (prop, score) lst ->
  List.In prop (Dict.values (properties self))
  /\ (status prop = FOR_SALE \/ status prop = PENDING)
  /\ exists c,
       List.In c (Dict.values (clients self))
       /\ client_id c = cid
       /\ 2 <= satisfied_count (preferences c) prop.
Proof.
  intros Hret Hin Hmem.
  destruct (match_entries _ _ _ _ Hret Hin)
    as (c & Hc & Hid & Hbuyer & suitable & Hs & ->).
  apply In_top_matches in Hmem.
  apply suitable_properties_spec in Hs as [Hsub Hall].
  rewrite List.Forall_forall in Hall.
  destruct (Hall _ Hmem) as (Hav & _ & Hscore & Hmin).
  simpl in Hav, Hscore, Hmin. repeat split.
  - apply (sublist_In prop _ _ Hsub).
    change prop with (fst (prop, score)). now apply List.in_map.
  - unfold available in Hav. destruct (status prop); simpl in Hav;
      try discriminate; auto.
  - exists c. repeat split; try assumption.
    apply score_property_sum in Hscore. unfold satisfied_count.
    destruct (type_preferred (preferences c) prop),
      (bedrooms_preferred (preferences c) prop),
      (city_preferred (preferences c) prop),
      (price_preferred (preferences c) prop); simpl in *; lia.
Qed.

Lemma returned_property_satisfies_two_preferences_witness :
  List.In sample_property_1 (Dict.values (properties sample_system))
  /\ (status sample_property_1 = FOR_SALE \/ status sample_property_1 = PENDING)
  /\ exists c,
       List.In c (Dict.values (clients sample_system))
       /\ client_id c = "CLI0001"
       /\ 2 <= satisfied_count (preferences c) sample_property_1.
Proof.
  apply (returned_property_satisfies_two_preferences sample_system
           [("CLI0001", [(sample_property_1, 75)])]
           "CLI0001" [(sample_property_1, 75)] sample_property_1 75).
  - vm_compute. reflexivity.
  - simpl. now left.
  - simpl. now left.
Defined.

Lemma for_each_consider_none (c : Client) (props : list Property) :
  (forall prop, List.In prop props -> scored_for c prop = false) ->
  forall acc, for_each (consider c) props acc = Return acc.
Proof.
  induction props as [| prop props IH]; intros Hnone acc; simpl;
    [reflexivity |].
  assert (consider c acc prop = Return acc) as ->.
  { specialize (Hnone prop (or_introl eq_refl)).
    unfold scored_for in Hnone. unfold consider.
    destruct (available prop); [| reflexivity].
    simpl in Hnone. now rewrite Hnone. }
  simpl. apply IH. intros p Hp. apply Hnone. now right.
Qed.

(** X7: when no property is both available and within 110% of a buyer's
    budget (an empty collection included), the method returns, whatever the
    types of the preferences are, and every list it returns is empty. *)
Theorem nothing_to_score_gives_empty_lists (self : System) :
  (forall c prop,
      List.In c (Dict.values (clients self)) ->
      client_type c = BUYER ->
      List.In prop (Dict.values (properties self)) ->
      scored_for c prop = false) ->
  exists matches,
    match_clients_to_properties self = Return matches
    /\ forall cid lst, List.In (cid, lst) matches -> lst = [].
Proof.
  intros Hnone.
  assert (returns (match_clients_to_properties self)) as [matches Hret].
  { unfold match_clients_to_properties.
    generalize (@nil (string * list scored)).
    induction (Dict.values (clients self)) as [| c cs IH]; intros acc; simpl.
    - now exists acc.
    - unfold match_client at 1.
      destruct (client_type c) eqn:E; simpl;
        try (apply IH; intros; apply Hnone; auto; now right).
      unfold suitable_properties.
      rewrite (for_each_consider_none c) by
        (intros; apply Hnone; auto; now left).
      simpl. apply IH. intros. apply Hnone; auto. now right. }
  exists matches. split; [exact Hret |].
  intros cid lst Hin.
  destruct (match_entries _ _ _ _ Hret Hin)
    as (c & Hc & _ & Hbuyer & suitable & Hs & ->).
  unfold suitable_properties in Hs.
  rewrite (for_each_consider_none c) in Hs by (intros; now apply Hnone).
  now injection Hs as <-.
Qed.

Lemma nothing_to_score_gives_empty_lists_witness :
  exists matches,
    match_clients_to_properties thrifty_system = Return matches
    /\ forall cid lst, List.In (cid, lst) matches -> lst = [].
Proof.
  apply nothing_to_score_gives_empty_lists.
  intros c prop [<- | []] _ [<- | [<- | []]]; reflexivity.
Defined.

Lemma score_property_returns_typed (preferences : gmap string pyval)
    (prop : Property) :
  returns (score_property preferences prop) -> preferences_typed preferences.
Proof.
  unfold returns, score_property, preferences_typed, num_ge_val, num_le_val,
    val_lower.
  intros [s H].
  destruct (preferences !! "bedrooms") as [v2 |].
  - destruct (as_num v2) eqn:E2; simpl in H; [| discriminate].
    split; [intros v [= <-]; rewrite E2; eauto |].
    destruct (preferences !! "city") as [v3 |].
    + destruct v3; simpl in H; try discriminate.
      split; [intros v [= <-]; eauto |].
      destruct (preferences !! "max_price") as [v4 |]; [| intros v [=]].
      destruct (as_num v4) eqn:E4; simpl in H; [| discriminate].
      intros v [= <-]. rewrite E4; eauto.
    + split; [intros v [=] |]. simpl in H.
      destruct (preferences !! "max_price") as [v4 |]; [| intros v [=]].
      destruct (as_num v4) eqn:E4; simpl in H; [| discriminate].
      intros v [= <-]. rewrite E4; eauto.
  - split; [intros v [=] |]. simpl in H.
    destruct (preferences !! "city") as [v3 |].
    + destruct v3; simpl in H; try discriminate.
      split; [intros v [= <-]; eauto |].
      destruct (preferences !! "max_price") as [v4 |]; [| intros v [=]].
      destruct (as_num v4) eqn:E4; simpl in H; [| discriminate].
      intros v [= <-]. rewrite E4; eauto.
    + split; [intros v [=] |]. simpl in H.
      destruct (preferences !! "max_price") as [v4 |]; [| intros v [=]].
      destruct (as_num v4) eqn:E4; simpl in H; [| discriminate].
      intros v [= <-]. rewrite E4; eauto.
Qed.

(** A loop returns exactly when each of its steps does, if whether a step
    returns does not depend on what was accumulated. *)
Lemma for_each_returns_iff {A S} (body : S -> A -> pyresult S)
    (ok : A -> Prop) (xs : list A) :
  (forall acc x, List.In x xs -> (returns (body acc x) <-> ok x)) ->
  forall acc,
    returns (for_each body xs acc) <-> (forall x, List.In x xs -> ok x).
Proof.
  induction xs as [| x xs IH]; intros Hstep acc; simpl.
  - split; [intros _ x [] | intros _; now exists acc].
  - split.
    + intros [r Hr]. destruct (body acc x) as [acc' |] eqn:E; simpl in Hr;
        [| discriminate].
      intros y [<- | Hy].
      * apply (Hstep acc); [now left | rewrite E; now exists acc'].
      * apply (IH (fun a z Hz => Hstep a z (or_intror Hz)) acc');
          [now exists r | exact Hy].
    + intros Hall.
      destruct (proj2 (Hstep acc x (or_introl eq_refl))
                      (Hall x (or_introl eq_refl))) as [acc' ->].
      simpl. apply (IH (fun a z Hz => Hstep a z (or_intror Hz))).
      intros y Hy. apply Hall. now right.
Qed.

Lemma consider_returns_iff (c : Client) (acc : list scored) (prop : Property) :
  returns (consider c acc prop)
  <-> (scored_for c prop = true -> preferences_typed (preferences c)).
Proof.
  unfold consider, scored_for. split.
  - intros [r Hr] Hs. apply andb_true_iff in Hs as [Ha Hf].
    rewrite Ha, Hf in Hr.
    apply (score_property_returns_typed _ prop).
    destruct (score_property (preferences c) prop) as [s |]; [now exists s |].
    discriminate.
  - intros Hty.
    destruct (available prop); [| now exists acc].
    destruct (fits_budget (budget c) prop); [| now exists acc].
    destruct (score_property_returns _ prop (Hty eq_refl)) as [s ->].
    simpl. eexists. reflexivity.
Qed.

Lemma match_client_returns_iff (props : list Property)
    (matches : Dict.t (list scored)) (c : Client) :
  returns (match_client props matches c)
  <-> (client_type c = BUYER ->
       forall prop, List.In prop props -> scored_for c prop = true ->
                    preferences_typed (preferences c)).
Proof.
  pose proof (for_each_returns_iff (consider c)
                (fun prop => scored_for c prop = true ->
                             preferences_typed (preferences c))
                props (fun acc x _ => consider_returns_iff c acc x) [])
    as Hloop.
  fold (suitable_properties c props) in Hloop.
  unfold match_client. split.
  - intros [r Hr] Hbuyer. rewrite Hbuyer in Hr. simpl in Hr.
    apply Hloop.
    destruct (suitable_properties c props) as [s |]; [now exists s |].
    discriminate.
  - intros H. destruct (client_type c) eqn:E; simpl;
      try (eexists; reflexivity).
    destruct (proj2 Hloop (H eq_refl)) as [s ->]. simpl.
    eexists. reflexivity.
Qed.

(** X8: the method returns exactly when every buyer for whom some property
    is available and within 110% of the budget has preferences of the types
    the comparisons need (a number for [bedrooms] and [max_price], a string
    for [city]); one buyer with, say, a bedroom count stored as text makes
    the whole call fail. *)
Theorem match_returns_iff_preferences_typed (self : System) :
  returns (match_clients_to_properties self)
  <-> (forall c, List.In c (Dict.values (clients self)) ->
       client_type c = BUYER ->
       forall prop, List.In prop (Dict.values (properties self)) ->
                    scored_for c prop = true ->
                    preferences_typed (preferences c)).
Proof.
  unfold match_clients_to_properties.
  apply (for_each_returns_iff
           (match_client (Dict.values (properties self)))
           (fun c => client_type c = BUYER ->
                     forall prop,
                       List.In prop (Dict.values (properties self)) ->
                       scored_for c prop = true ->
                       preferences_typed (preferences c))).
  intros acc c _. apply match_client_returns_iff.
Qed.

Example text_for_bedrooms_is_a_type_error :
  match_clients_to_properties careless_system = Raise TypeError.
Proof. vm_compute. reflexivity. Qed.

(* ===================================================================== *)
(** ** The mortgage at a vanishing rate *)

(** X9: a positive monthly rate too small to change 1.0 when added to it
    makes the amortization formula divide by zero: the growth factor is
    [1.0 ** n = 1.0] and the denominator [growth - 1] is 0. *)
Theorem vanishing_rate_divides_by_zero
    (float_pow : float -> Z -> pyresult float)
    (P D R : float) (T : Z) :
  (0 <? R / 100 / 12)%float = true ->
  (1 + R / 100 / 12)%float = 1%float ->
  float_pow 1%float (T * 12) = Return 1%float ->
  calculate_mortgage float_pow P D R T = Raise ZeroDivisionError.
Proof.
  intros Hpos Hone Hpow. unfold calculate_mortgage.
  rewrite Hpos, Hone, Hpow. reflexivity.
Qed.

Lemma vanishing_rate_divides_by_zero_witness :
  calculate_mortgage pow_by_multiplication 750000 150000 0x1p-50 30
  = Raise ZeroDivisionError.
Proof.
  apply vanishing_rate_divides_by_zero; vm_compute; reflexivity.
Defined.

(* ===================================================================== *)
(** ** Searching clients *)

Lemma lower_append (a b : string) : lower (a ++ b) = lower a ++ lower b.
Proof.
  induction a as [| ch a IH]; [reflexivity |].
  change (String (lower_char ch) (lower (a ++ b))
          = String (lower_char ch) (lower a ++ lower b)).
  now rewrite IH.
Qed.

Lemma append_assoc (a b c : string) : (a ++ b) ++ c = a ++ (b ++ c).
Proof.
  induction a as [| ch a IH]; [reflexivity |].
  change (String ch ((a ++ b) ++ c) = String ch (a ++ (b ++ c))).
  now rewrite IH.
Qed.

Lemma str_contains_append_l (n a b : string) :
  str_contains n a = true -> str_contains n (a ++ b) = true.
Proof.
  rewrite !str_contains_iff. intros (pre & post & ->).
  exists pre, (post ++ b). now rewrite !append_assoc.
Qed.

Lemma str_contains_append_r (n a b : string) :
  str_contains n b = true -> str_contains n (a ++ b) = true.
Proof.
  rewrite !str_contains_iff. intros (pre & post & ->).
  exists (a ++ pre), post. now rewrite !append_assoc.
Qed.

(** X10: searching clients by the full text of a client type, in any case,
    returns exactly the clients of that type, in the collection's order. *)
Theorem search_clients_by_type_text
    (self : System) (text : string) (t : ClientType) :
  lower text = lower (ClientType_value t) ->
  search_clients self [("client_type", VStr text)]
  = List.filter (fun c => ClientType_eqb (client_type c) t)
                (Dict.values (clients self)).
Proof.
  intros Ht. unfold search_clients. apply List.filter_ext. intros c. simpl.
  unfold client_criterion_holds. simpl. rewrite Ht.
  now destruct (client_type c), t.
Qed.

Lemma search_clients_by_type_text_witness :
  search_clients mixed_system [("client_type", VStr "BUYER")]
  = List.filter (fun c => ClientType_eqb (client_type c) BUYER)
                (Dict.values (clients mixed_system)).
Proof. apply search_clients_by_type_text. reflexivity. Defined.

(** X11: the interactive name search finds every client that
    [search_clients] finds by first name or by last name with the same
    text: a text inside either name is inside the full name. *)
Theorem name_search_covers_both_names
    (self : System) (name : string) (c : Client) :
  List.In c (search_clients self [("first_name", VStr name)])
  \/ List.In c (search_clients self [("last_name", VStr name)]) ->
  List.In c (search_clients_interactive self name).
Proof.
  unfold search_clients, search_clients_interactive, full_name.
  intros H.
  assert (List.In c (Dict.values (clients self))
          /\ (str_contains (lower name) (lower (first_name c)) = true
              \/ str_contains (lower name) (lower (last_name c)) = true))
    as [Hin Hpart].
  { destruct H as [H | H]; apply List.filter_In in H as [Hin H];
      simpl in H; unfold client_criterion_holds in H; simpl in H;
      (split; [exact Hin |]);
      [left | right]; now destruct (str_contains _ _). }
  destruct (is_empty name); [exact Hin |].
  apply List.filter_In. split; [exact Hin |].
  rewrite !lower_append.
  destruct Hpart as [Hf | Hl].
  - now apply str_contains_append_l.
  - now apply str_contains_append_r, str_contains_append_r.
Qed.

Lemma name_search_covers_both_names_witness :
  List.In sample_client (search_clients_interactive sample_system "DOE").
Proof.
  apply name_search_covers_both_names. right.
  simpl. now left.
Defined.

(** A text that runs across the space between the two names is found by
    the interactive search only. *)
Example name_search_spans_the_space :
  search_clients_interactive sample_system "n d" = [sample_client]
  /\ search_clients sample_system [("first_name", VStr "n d")] = []
  /\ search_clients sample_system [("last_name", VStr "n d")] = [].
Proof. repeat split. Qed.

(* ===================================================================== *)
(** ** Enumerations *)

Lemma enum_call_value :
  (forall t, PropertyType_call (PropertyType_value t) = Return t)
  /\ (forall s, PropertyStatus_call (PropertyStatus_value s) = Return s)
  /\ (forall c, ClientType_call (ClientType_value c) = Return c).
Proof. repeat split; now intros []. Qed.

Lemma enum_call_inv :
  (forall text t,
      PropertyType_call text = Return t -> text = PropertyType_value t)
  /\ (forall text s,
        PropertyStatus_call text = Return s -> text = PropertyStatus_value s)
  /\ (forall text c,
        ClientType_call text = Return c -> text = ClientType_value c).
Proof.
  repeat split.
  - intros text t. unfold PropertyType_call.
    repeat match goal with
           | |- context [String.eqb text ?v] =>
               destruct (String.eqb_spec text v) as [-> | _];
               [now intros [= <-] |]
           end.
    discriminate.
  - intros text s. unfold PropertyStatus_call.
    repeat match goal with
           | |- context [String.eqb text ?v] =>
               destruct (String.eqb_spec text v) as [-> | _];
               [now intros [= <-] |]
           end.
    discriminate.
  - intros text c. unfold ClientType_call.
    repeat match goal with
           | |- context [String.eqb text ?v] =>
               destruct (String.eqb_spec text v) as [-> | _];
               [now intros [= <-] |]
           end.
    discriminate.
Qed.

(** X12: the texts of the three enumerations round-trip through the call
    that [load_data] and the [add_] methods make on what [save_data] wrote:
    calling an enumeration with a member's text gives that member, and a
    text gives a member only if it is that member's text, exactly as
    written. *)
Theorem enum_texts_round_trip :
  (forall text t,
      PropertyType_call text = Return t <-> text = PropertyType_value t)
  /\ (forall text s,
        PropertyStatus_call text = Return s <-> text = PropertyStatus_value s)
  /\ (forall text c,
        ClientType_call text = Return c <-> text = ClientType_value c).
Proof.
  destruct enum_call_value as (Ht & Hs & Hc).
  destruct enum_call_inv as (It & Is & Ic).
  repeat split.
  - apply It.
  - intros ->. apply Ht.
  - apply Is.
  - intros ->. apply Hs.
  - apply Ic.
  - intros ->. apply Hc.
Qed.

Lemma PropertyType_call_cases (text : string) :
  (exists t, PropertyType_call text = Return t)
  \/ PropertyType_call text = Raise ValueError.
Proof.
  unfold PropertyType_call.
  repeat match goal with
         | |- context [String.eqb text ?v] =>
             destruct (String.eqb text v); [left; eauto |]
         end.
  now right.
Qed.

Lemma PropertyStatus_call_cases (text : string) :
  (exists s, PropertyStatus_call text = Return s)
  \/ PropertyStatus_call text = Raise ValueError.
Proof.
  unfold PropertyStatus_call.
  repeat match goal with
         | |- context [String.eqb text ?v] =>
             destruct (String.eqb text v); [left; eauto |]
         end.
  now right.
Qed.

(* ===================================================================== *)
(** ** Identifiers *)

Lemma read_decimal_zero (s : string) :
  read_decimal (String "0" s) = read_decimal s.
Proof.
  unfold read_decimal. cbn [NilEmpty.uint_of_string].
  now destruct (NilEmpty.uint_of_string s).
Qed.

Lemma read_decimal_digits (n : nat) :
  read_decimal (NilZero.string_of_uint (Nat.to_uint n)) = Some n.
Proof.
  unfold read_decimal.
  rewrite <- (DecimalNat.Unsigned.of_to n) at 2.
  destruct (Nat.to_uint n) eqn:E; try reflexivity;
    unfold NilZero.string_of_uint; now rewrite NilEmpty.usu.
Qed.

Lemma read_decimal_format (n : nat) : read_decimal (format_04d n) = Some n.
Proof.
  unfold format_04d.
  induction (4 - String.length (NilZero.string_of_uint (Nat.to_uint n)))%nat
    as [| k IH].
  - apply read_decimal_digits.
  - change (zeros (S k) ++ NilZero.string_of_uint (Nat.to_uint n))
      with (String "0" (zeros k ++ NilZero.string_of_uint (Nat.to_uint n))).
    now rewrite read_decimal_zero.
Qed.

Lemma append_inj_r (a x y : string) : a ++ x = a ++ y -> x = y.
Proof.
  induction a as [| ch a IH]; [trivial |].
  intros H. apply IH.
  change (String ch (a ++ x) = String ch (a ++ y)) in H. congruence.
Qed.

(** Different counts give different identifiers. *)
Lemma identifier_inj (prefix : string) (n m : nat) :
  prefix ++ format_04d n = prefix ++ format_04d m -> n = m.
Proof.
  intros H. apply append_inj_r in H.
  pose proof (read_decimal_format n) as Hn. rewrite H in Hn.
  rewrite read_decimal_format in Hn. congruence.
Qed.

Lemma Dict_length_keys {V} (d : Dict.t V) : length (Dict.keys d) = length d.
Proof. unfold Dict.keys. apply List.length_map. Qed.

(** Storing under the next identifier of a numbered collection adds an
    entry, keeps the numbering and keeps every earlier binding. *)
Lemma numbered_setitem {V} (prefix : string) (v : V) (d : Dict.t V) :
  numbered prefix d ->
  let id := prefix ++ format_04d (length d + 1) in
  Dict.get id d = None
  /\ numbered prefix (Dict.setitem id v d)
  /\ length (Dict.setitem id v d) = S (length d)
  /\ (forall k x, Dict.get k d = Some x ->
                  Dict.get k (Dict.setitem id v d) = Some x).
Proof.
  intros Hnum id.
  assert (Dict.get id d = None) as Habsent.
  { apply Dict_get_None_keys. rewrite Hnum. intros Hin.
    apply List.in_map_iff in Hin as (n & Heq & Hn).
    apply identifier_inj in Heq. apply List.in_seq in Hn. lia. }
  assert (length (Dict.setitem id v d) = S (length d)) as Hlen.
  { rewrite <- !Dict_length_keys, Dict_keys_setitem_absent by exact Habsent.
    rewrite List.length_app. simpl. lia. }
  repeat split; try assumption.
  - unfold numbered. rewrite Dict_keys_setitem_absent by exact Habsent.
    rewrite Hlen, List.seq_S, List.map_app, Hnum. simpl.
    unfold id. repeat f_equal. lia.
  - intros k x Hk. rewrite Dict_get_setitem_ne; [exact Hk |].
    intros ->. congruence.
Qed.

(* ===================================================================== *)
(** ** [add_property] and [add_client] *)

Lemma add_property_accepted (self : System) (data : PropertyData)
    (t : PropertyType) (s : PropertyStatus) :
  PropertyType_call (pd_property_type data) = Return t ->
  PropertyStatus_call (pd_status data) = Return s ->
  let id := "PROP" ++ format_04d (length (properties self) + 1) in
  let self' :=
    with_properties self
      (Dict.setitem id (new_property id t s data) (properties self)) in
  add_property self data
  = {| result := Return id;
       final := self';
       trace := [Saved self';
                 Printed ("Property added successfully! ID: " ++ id)] |}.
Proof. intros Ht Hs. unfold add_property. now rewrite Ht, Hs. Qed.

(** X13: a property that was added is found under the returned identifier
    with every field as given, the two texts turned into their members;
    the other identifiers keep their records and the clients are
    untouched. *)
Theorem added_property_is_stored
    (self : System) (data : PropertyData)
    (t : PropertyType) (s : PropertyStatus) :
  PropertyType_call (pd_property_type data) = Return t ->
  PropertyStatus_call (pd_status data) = Return s ->
  let o := add_property self data in
  exists id,
    result o = Return id
    /\ id = "PROP" ++ format_04d (length (properties self) + 1)
    /\ Dict.get id (properties (final o)) = Some (new_property id t s data)
    /\ (forall k, k <> id ->
          Dict.get k (properties (final o)) = Dict.get k (properties self))
    /\ clients (final o) = clients self.
Proof.
  intros Ht Hs. cbv zeta. rewrite (add_property_accepted self data t s Ht Hs).
  eexists. split; [reflexivity |]. split; [reflexivity |]. simpl.
  split; [apply Dict_get_setitem_eq |]. split; [| reflexivity].
  intros k Hk. now apply Dict_get_setitem_ne.
Qed.

Lemma added_property_is_stored_witness :
  exists id,
    result (add_property empty_system sample_data) = Return id
    /\ id = "PROP" ++ format_04d (length (properties empty_system) + 1)
    /\ Dict.get id (properties (final (add_property empty_system sample_data)))
       = Some (new_property id RESIDENTIAL FOR_SALE sample_data)
    /\ (forall k, k <> id ->
          Dict.get k (properties (final (add_property empty_system sample_data)))
          = Dict.get k (properties empty_system))
    /\ clients (final (add_property empty_system sample_data))
       = clients empty_system.
Proof.
  apply (added_property_is_stored empty_system sample_data
           RESIDENTIAL FOR_SALE); reflexivity.
Defined.

Example first_property_is_the_sample :
  result (add_property empty_system sample_data) = Return "PROP0001"
  /\ properties (final (add_property empty_system sample_data))
     = [("PROP0001", sample_property_1)].
Proof. split; reflexivity. Qed.

(** X14: a type text or a status text that is not the text of a member,
    exactly as written, makes [add_property] raise [ValueError] at the enum
    call, before the record is built: the system is as it was, and nothing
    is saved or printed, whatever the other entries of the data hold. *)
Theorem add_property_rejects_unknown_texts
    (self : System) (data : PropertyData) :
  (forall t, pd_property_type data <> PropertyType_value t)
  \/ (forall s, pd_status data <> PropertyStatus_value s) ->
  let o := add_property self data in
  result o = Raise ValueError /\ final o = self /\ trace o = [].
Proof.
  intros Hbad. cbv zeta. unfold add_property.
  destruct (PropertyType_call_cases (pd_property_type data))
    as [[t Ht] | Ht]; rewrite Ht; [| now repeat split].
  destruct (PropertyStatus_call_cases (pd_status data))
    as [[s Hs] | Hs]; rewrite Hs; [| now repeat split].
  apply enum_call_inv in Ht. apply enum_call_inv in Hs.
  destruct Hbad as [H | H]; [now destruct (H t) | now destruct (H s)].
Qed.

Lemma add_property_rejects_unknown_texts_witness :
  let data := with_type_text "residential" sample_data in
  ((forall t, pd_property_type data <> PropertyType_value t)
   \/ (forall s, pd_status data <> PropertyStatus_value s))
  /\ result (add_property sample_system data) = Raise ValueError
  /\ final (add_property sample_system data) = sample_system
  /\ trace (add_property sample_system data) = [].
Proof.
  cbv zeta.
  assert (forall t, pd_property_type (with_type_text "residential" sample_data)
                    <> PropertyType_value t) as Hbad
    by (intros []; discriminate).
  split; [now left |].
  apply (add_property_rejects_unknown_texts sample_system
           (with_type_text "residential" sample_data)).
  now left.
Defined.

Example lower_case_type_is_rejected :
  result (add_property empty_system
            {| pd_address := ""; pd_city := ""; pd_state := "";
               pd_zip_code := ""; pd_property_type := "residential";
               pd_status := "For Sale"; pd_price := 0%float;
               pd_bedrooms := 0; pd_bathrooms := 0%float;
               pd_square_feet := 0; pd_year_built := 0;
               pd_description := ""; pd_listing_date := "";
               pd_features := []; pd_agent_id := None |})
  = Raise ValueError.
Proof. reflexivity. Qed.

(** X15: in a collection whose identifiers are PROP0001, PROP0002, ... in
    order (the empty one included), an accepted [add_property] stores under
    a fresh identifier: the collection grows by one, is numbered again, and
    keeps every earlier record. *)
Theorem add_property_keeps_numbering
    (self : System) (data : PropertyData)
    (t : PropertyType) (s : PropertyStatus) :
  numbered "PROP" (properties self) ->
  PropertyType_call (pd_property_type data) = Return t ->
  PropertyStatus_call (pd_status data) = Return s ->
  let o := add_property self data in
  numbered "PROP" (properties (final o))
  /\ length (properties (final o)) = S (length (properties self))
  /\ (forall k p, Dict.get k (properties self) = Some p ->
                  Dict.get k (properties (final o)) = Some p).
Proof.
  intros Hnum Ht Hs. cbv zeta.
  rewrite (add_property_accepted self data t s Ht Hs). simpl.
  pose proof (numbered_setitem "PROP"
                (new_property
                   ("PROP" ++ format_04d (length (properties self) + 1))
                   t s data)
                (properties self) Hnum) as H.
  cbv zeta in H. tauto.
Qed.

Lemma add_property_keeps_numbering_witness :
  let o := add_property sample_system sample_data in
  numbered "PROP" (properties (final o))
  /\ length (properties (final o)) = S (length (properties sample_system))
  /\ (forall k p, Dict.get k (properties sample_system) = Some p ->
                  Dict.get k (properties (final o)) = Some p).
Proof.
  apply (add_property_keeps_numbering sample_system sample_data
           RESIDENTIAL FOR_SALE); reflexivity.
Defined.

(** X16: the identifier is computed from the size of the collection alone.
    When it is already in use (a file edited by hand, say), an accepted
    [add_property] replaces the record stored under it: the keys stay as
    they were and the earlier record is gone. *)
Theorem add_property_overwrites_on_collision
    (self : System) (data : PropertyData)
    (t : PropertyType) (s : PropertyStatus) (old : Property) :
  let id := "PROP" ++ format_04d (length (properties self) + 1) in
  Dict.get id (properties self) = Some old ->
  PropertyType_call (pd_property_type data) = Return t ->
  PropertyStatus_call (pd_status data) = Return s ->
  let o := add_property self data in
  result o = Return id
  /\ Dict.keys (properties (final o)) = Dict.keys (properties self)
  /\ Dict.get id (properties (final o)) = Some (new_property id t s data).
Proof.
  cbv zeta. intros Hold Ht Hs.
  rewrite (add_property_accepted self data t s Ht Hs). simpl.
  split; [reflexivity |]. split.
  - now apply Dict_keys_setitem_present with (v0 := old).
  - apply Dict_get_setitem_eq.
Qed.

Lemma add_property_overwrites_on_collision_witness :
  let o := add_property gapped_system sample_data in
  result o = Return "PROP0002"
  /\ Dict.keys (properties (final o)) = Dict.keys (properties gapped_system)
  /\ Dict.get "PROP0002" (properties (final o))
     = Some (new_property "PROP0002" RESIDENTIAL FOR_SALE sample_data).
Proof.
  apply (add_property_overwrites_on_collision gapped_system sample_data
           RESIDENTIAL FOR_SALE sample_property_2); reflexivity.
Defined.

(** X17: an accepted [add_client] stores the client under CLI followed by
    the padded count, with an empty list of interesting properties when the
    data names none; in a numbered collection the identifier is fresh and
    every earlier client is kept; the properties are untouched.  A client
    type that is not the text of a member is a [ValueError] that stores
    nothing. *)
Theorem add_client_stores_client (self : System) (data : ClientData) :
  let o := add_client self data in
  let id := "CLI" ++ format_04d (length (clients self) + 1) in
  (forall t, ClientType_call (cd_client_type data) = Return t ->
     result o = Return id
     /\ Dict.get id (clients (final o)) = Some (new_client id t data)
     /\ (cd_interested_properties data = None ->
         interested_properties (new_client id t data) = [])
     /\ properties (final o) = properties self
     /\ (numbered "CLI" (clients self) ->
         numbered "CLI" (clients (final o))
         /\ forall k c, Dict.get k (clients self) = Some c ->
                        Dict.get k (clients (final o)) = Some c))
  /\ ((forall t, cd_client_type data <> ClientType_value t) ->
      result o = Raise ValueError /\ final o = self /\ trace o = []).
Proof.
  cbv zeta. unfold add_client. split.
  - intros t Ht. rewrite Ht. simpl.
    split; [reflexivity |]. split; [apply Dict_get_setitem_eq |].
    split; [now intros -> |]. split; [reflexivity |].
    intros Hnum.
    pose proof (numbered_setitem "CLI"
                  (new_client
                     ("CLI" ++ format_04d (length (clients self) + 1)) t data)
                  (clients self) Hnum) as H.
    cbv zeta in H. tauto.
  - intros Hbad.
    destruct (ClientType_call (cd_client_type data)) as [t | e] eqn:E.
    + apply enum_call_inv in E. now destruct (Hbad t).
    + unfold ClientType_call in E.
      repeat match type of E with
             | context [String.eqb ?a ?v] =>
                 destruct (String.eqb a v); [discriminate |]
             end.
      injection E as <-. repeat split.
Qed.

Lemma add_client_stores_client_witness :
  let o := add_client empty_system sample_client_data in
  result o = Return "CLI0001"
  /\ Dict.get "CLI0001" (clients (final o))
     = Some (new_client "CLI0001" BUYER sample_client_data)
  /\ (cd_interested_properties sample_client_data = None ->
      interested_properties (new_client "CLI0001" BUYER sample_client_data)
      = [])
  /\ properties (final o) = properties empty_system
  /\ (numbered "CLI" (clients empty_system) ->
      numbered "CLI" (clients (final o))
      /\ forall k c, Dict.get k (clients empty_system) = Some c ->
                     Dict.get k (clients (final o)) = Some c).
Proof.
  destruct (add_client_stores_client empty_system sample_client_data)
    as [Hok _].
  apply (Hok BUYER). reflexivity.
Defined.

(* ===================================================================== *)
(** ** [update_property_status_interactive] *)

(** X18: the interactive update never lets an exception out, whatever is
    typed and whatever [title] does.  An unknown identifier changes nothing
    and prints "Property not found."; a status text that [title] does not
    turn into the text of a member changes nothing and prints "Invalid
    status entered."; otherwise the record under the identifier gets the
    new status, and the lines printed are the current status, then the
    confirmation of [update_property_status], whose own not-found branch is
    never reached from here. *)
Theorem interactive_update_effect
    (title : string -> string) (self : System)
    (property_answer status_answer : string) :
  let o :=
    update_property_status_interactive title self
      property_answer status_answer in
  let banner := Printed (newline ++ "--- Update Property Status ---") in
  result o = Return tt
  /\ match Dict.get property_answer (properties self) with
     | None =>
         final o = self
         /\ trace o = [banner; Printed "Property not found."]
     | Some prop =>
         let current :=
           Printed ("Current Status: " ++ PropertyStatus_value (status prop)) in
         match PropertyStatus_call (title status_answer) with
         | Return new_status =>
             final o
             = with_properties self
                 (Dict.setitem property_answer (set_status new_status prop)
                               (properties self))
             /\ trace o
                = [banner; current; Saved (final o);
                   Printed ("Property " ++ property_answer
                            ++ " status updated to "
                            ++ PropertyStatus_value new_status)]
         | Raise _ =>
             final o = self
             /\ trace o = [banner; current; Printed "Invalid status entered."]
         end
     end.
Proof.
  cbv zeta.
  unfold update_property_status_interactive, update_property_status,
    Dict.contains, Dict.getitem.
  destruct (Dict.get property_answer (properties self)) as [prop |] eqn:E;
    [| repeat split].
  destruct (PropertyStatus_call_cases (title status_answer))
    as [[st Hst] | Hst]; rewrite Hst; [| repeat split].
  simpl. repeat split.
Qed.

Example interactive_update_of_the_sample :
  let o :=
    update_property_status_interactive (fun text => text) sample_system
      "PROP0001" "Sold" in
  result o = Return tt
  /\ map (fun kv => (fst kv, status (snd kv))) (properties (final o))
     = [("PROP0001", SOLD); ("PROP0002", FOR_RENT)]
  /\ final (update_property_status_interactive (fun text => text)
              sample_system "PROP0001" "sold") = sample_system.
Proof. repeat split. Qed.

(* ===================================================================== *)
(** ** The interactive search, from the answers to the records shown *)

Section InteractiveSearchFacts.
Variable parse_int : string -> pyresult Z.
Variable parse_float : string -> pyresult float.

Lemma typed_bedrooms_cases (text : string) (beds : option Z) :
  typed_bedrooms parse_int text = Return beds ->
  (is_empty text = true /\ beds = None)
  \/ exists n, is_empty text = false /\ parse_int text = Return n
               /\ beds = Some n.
Proof.
  unfold typed_bedrooms. destruct (is_empty text).
  - intros [= <-]. now left.
  - destruct (parse_int text) as [n |]; [| discriminate].
    intros [= <-]. right. now exists n.
Qed.

Lemma bound_answer_cases (text : string) (bound : option float) :
  bound_answer parse_float text = Return bound ->
  (is_empty text = true /\ bound = None)
  \/ exists f, is_empty text = false /\ parse_float text = Return f
               /\ bound = Some f.
Proof.
  unfold bound_answer. destruct (is_empty text).
  - intros [= <-]. now left.
  - destruct (parse_float text) as [f |]; [| discriminate].
    intros [= <-]. right. now exists f.
Qed.

Lemma read_criteria_exact (answer : string -> string)
    (beds : option Z) (lo hi : option float) :
  typed_bedrooms parse_int (answer "bedrooms") = Return beds ->
  bound_answer parse_float (answer "min_price") = Return lo ->
  bound_answer parse_float (answer "max_price") = Return hi ->
  read_criteria parse_int parse_float answer
  = Return (typed_criteria answer beds lo hi).
Proof.
  intros Hb Hlo Hhi.
  unfold read_criteria, fields, typed_criteria, text_criterion, typed_range.
  cbn [for_each]. unfold read_field.
  destruct (typed_bedrooms_cases _ _ Hb) as [[Eb ->] | (n & Eb & Pb & ->)];
    destruct (bound_answer_cases _ _ Hlo) as [[El ->] | (l & El & Pl & ->)];
    destruct (bound_answer_cases _ _ Hhi) as [[Eh ->] | (h & Eh & Ph & ->)];
    destruct (is_empty (answer "city"));
    destruct (is_empty (answer "property_type"));
    destruct (is_empty (answer "status"));
    rewrite ?Eb, ?El, ?Eh, ?Pb, ?Pl, ?Ph; reflexivity.
Qed.
Lemma typed_criteria_without_bounds (answer : string -> string)
    (beds : option Z) (lo hi : option float) :
  without_price_bounds (typed_criteria answer beds lo hi)
  = typed_criteria answer beds lo hi.
Proof.
  unfold typed_criteria, text_criterion, typed_range, without_price_bounds.
  destruct (is_empty (answer "city")), (is_empty (answer "property_type")),
    (is_empty (answer "status")), beds, lo, hi; reflexivity.
Qed.

Lemma typed_criteria_range (answer : string -> string)
    (beds : option Z) (lo hi : option float) :
  Dict.get "price_range" (typed_criteria answer beds lo hi)
  = typed_range lo hi.
Proof.
  unfold typed_criteria, text_criterion, typed_range.
  destruct (is_empty (answer "city")), (is_empty (answer "property_type")),
    (is_empty (answer "status")), beds, lo, hi; reflexivity.
Qed.

Lemma typed_criteria_match (answer : string -> string)
    (beds : option Z) (lo hi : option float) (p : Property) :
  criteria_match p (typed_criteria answer beds lo hi)
  = text_matches (answer "city") (city p)
    && text_matches (answer "property_type")
         (PropertyType_value (property_type p))
    && text_matches (answer "status") (PropertyStatus_value (status p))
    && match beds with Some n => n =? bedrooms p | None => true end.
Proof.
  unfold typed_criteria, text_criterion, text_matches.
  rewrite !criteria_match_app.
  destruct (is_empty (answer "city")), (is_empty (answer "property_type")),
    (is_empty (answer "status")), beds, (typed_range lo hi);
    unfold criteria_match, criterion_holds; cbn;
    repeat match goal with
           | |- context [str_contains ?a ?b] => destruct (str_contains a b)
           | |- context [?n =? ?m] => destruct (n =? m)
           end;
    reflexivity.
Qed.

(** X19: when the prompts are answered with texts that [int] and [float]
    accept, the interactive search shows exactly the records of the
    collection, in its order, whose city, type and status contain the typed
    texts in any case (a prompt left empty accepts all), whose number of
    bedrooms is the typed one, and whose price lies within the typed
    bounds. *)
Theorem interactive_search_shows
    (self : System) (answer : string -> string)
    (beds : option Z) (lo hi : option float) :
  typed_bedrooms parse_int (answer "bedrooms") = Return beds ->
  bound_answer parse_float (answer "min_price") = Return lo ->
  bound_answer parse_float (answer "max_price") = Return hi ->
  search_properties_interactive parse_int parse_float self answer
  = Return (List.filter (shown answer beds lo hi)
                        (Dict.values (properties self))).
Proof.
  intros Hb Hlo Hhi. unfold search_properties_interactive.
  rewrite (read_criteria_exact answer beds lo hi Hb Hlo Hhi). cbn [bind].
  rewrite typed_criteria_without_bounds.
  unfold Dict.contains, Dict.getitem. rewrite typed_criteria_range.
  unfold search_properties.
  assert (forall f : Property -> bool,
             List.filter
               (fun p => criteria_match p (typed_criteria answer beds lo hi)
                         && f p)
               (Dict.values (properties self))
             = List.filter
                 (fun p =>
                    text_matches (answer "city") (city p)
                    && text_matches (answer "property_type")
                         (PropertyType_value (property_type p))
                    && text_matches (answer "status")
                         (PropertyStatus_value (status p))
                    && match beds with
                       | Some n => n =? bedrooms p
                       | None => true
                       end
                    && f p)
                 (Dict.values (properties self))) as Hfilter.
  { intros f. apply List.filter_ext. intros p.
    now rewrite typed_criteria_match. }
  unfold shown.
  destruct lo as [l |], hi as [h |]; cbn [typed_range bind unpack2 fst snd].
  - rewrite (filter_raising_in_price_range
               (VFloat l) (VFloat h) (NFloat l) (NFloat h)) by reflexivity.
    rewrite filter_filter. now rewrite Hfilter.
  - rewrite (filter_raising_in_price_range
               (VFloat l) (VFloat infinity) (NFloat l) (NFloat infinity))
      by reflexivity.
    rewrite filter_filter. now rewrite Hfilter.
  - rewrite (filter_raising_in_price_range
               (VInt 0) (VFloat h) (NInt 0) (NFloat h)) by reflexivity.
    rewrite filter_filter. now rewrite Hfilter.
  - f_equal. apply List.filter_ext. intros p.
    now rewrite typed_criteria_match, andb_true_r.
Qed.

(** X20: a text that [int] or [float] rejects aborts the search with that
    exception: the bedrooms first, then the minimum, then the maximum
    price. *)
Theorem interactive_search_aborts
    (self : System) (answer : string -> string) (e : exn) :
  (is_empty (answer "bedrooms") = false ->
   parse_int (answer "bedrooms") = Raise e ->
   search_properties_interactive parse_int parse_float self answer = Raise e)
  /\ (forall beds,
        typed_bedrooms parse_int (answer "bedrooms") = Return beds ->
        is_empty (answer "min_price") = false ->
        parse_float (answer "min_price") = Raise e ->
        search_properties_interactive parse_int parse_float self answer
        = Raise e)
  /\ (forall beds lo,
        typed_bedrooms parse_int (answer "bedrooms") = Return beds ->
        bound_answer parse_float (answer "min_price") = Return lo ->
        is_empty (answer "max_price") = false ->
        parse_float (answer "max_price") = Raise e ->
        search_properties_interactive parse_int parse_float self answer
        = Raise e).
Proof.
  unfold search_properties_interactive, read_criteria, fields.
  cbn [for_each]. unfold read_field.
  repeat split.
  - intros Eb Pb.
    destruct (is_empty (answer "city")), (is_empty (answer "property_type")),
      (is_empty (answer "status")); rewrite ?Eb, ?Pb; reflexivity.
  - intros beds Hb El Pl.
    destruct (typed_bedrooms_cases _ _ Hb) as [[Eb ->] | (n & Eb & Pb & ->)];
      destruct (is_empty (answer "city")),
        (is_empty (answer "property_type")), (is_empty (answer "status"));
      rewrite ?Eb, ?Pb, ?El, ?Pl; reflexivity.
  - intros beds lo Hb Hlo Eh Ph.
    destruct (typed_bedrooms_cases _ _ Hb) as [[Eb ->] | (n & Eb & Pb & ->)];
      destruct (bound_answer_cases _ _ Hlo) as [[El ->] | (l & El & Pl & ->)];
      destruct (is_empty (answer "city")),
        (is_empty (answer "property_type")), (is_empty (answer "status"));
      rewrite ?Eb, ?Pb, ?El, ?Pl, ?Eh, ?Ph; reflexivity.
Qed.
End InteractiveSearchFacts.

Lemma interactive_search_shows_witness :
  search_properties_interactive int_of_3 float_of_5000
    sample_system city_and_bedrooms
  = Return (List.filter (shown city_and_bedrooms (Some 3) None None)
                        (Dict.values (properties sample_system))).
Proof. apply interactive_search_shows; reflexivity. Defined.

Example city_and_bedrooms_show_the_townhouse :
  search_properties_interactive int_of_3 float_of_5000
    sample_system city_and_bedrooms
  = Return [sample_property_1].
Proof. vm_compute. reflexivity. Qed.

Lemma interactive_search_aborts_witness :
  search_properties_interactive int_of_nothing float_of_5000
    sample_system city_and_bedrooms
  = Raise ValueError.
Proof.
  destruct (interactive_search_aborts int_of_nothing float_of_5000
              sample_system city_and_bedrooms ValueError) as [H _].
  apply H; reflexivity.
Defined.

(* ===================================================================== *)
(** ** Changing the collection, then searching it *)

Lemma prefix_refl (s : string) : String.prefix s s = true.
Proof.
  induction s as [| ch s IH]; [reflexivity |].
  cbn [String.prefix]. now destruct (ascii_dec ch ch).
Qed.

Lemma str_contains_refl (s : string) : str_contains s s = true.
Proof. destruct s; cbn [str_contains]; now rewrite prefix_refl. Qed.

Lemma Dict_get_In_values {V} (k : string) (v : V) (d : Dict.t V) :
  Dict.get k d = Some v -> List.In v (Dict.values d).
Proof.
  induction d as [| [k' v'] d IH]; simpl; [discriminate |].
  destruct (String.eqb k k'); [intros [= <-]; now left | right; auto].
Qed.

Lemma criterion_holds_own_text
    (prop : Property) (key text : string) (attr : pyval) :
  Property_getattr prop key = Some attr ->
  unwrap_enum attr = VStr text ->
  criterion_holds prop key (VStr text) = true.
Proof.
  intros Hattr Htext. unfold criterion_holds.
  rewrite Hattr, Htext. apply str_contains_refl.
Qed.

(** X21: after the status of a known identifier is updated, a search for
    the text of the new status finds the updated record. *)
Theorem updated_record_is_found_by_status
    (self : System) (pid : string) (new_status : PropertyStatus)
    (prop : Property) :
  Dict.get pid (properties self) = Some prop ->
  List.In (set_status new_status prop)
    (search_properties (final (update_property_status self pid new_status))
       [("status", VStr (PropertyStatus_value new_status))]).
Proof.
  intros Hget. unfold update_property_status, Dict.contains, Dict.getitem.
  rewrite Hget. simpl. unfold search_properties. apply List.filter_In. split.
  - apply (Dict_get_In_values pid). apply Dict_get_setitem_eq.
  - cbn [criteria_match].
    now rewrite criterion_holds_own_text
      with (attr := VPropertyStatus new_status) by reflexivity.
Qed.

Lemma updated_record_is_found_by_status_witness :
  List.In (set_status PENDING sample_property_2)
    (search_properties
       (final (update_property_status sample_system "PROP0002" PENDING))
       [("status", VStr (PropertyStatus_value PENDING))]).
Proof. apply updated_record_is_found_by_status. reflexivity. Defined.

(** X22: a property that was just added is found by a search for its
    returned identifier together with its own city, address and type
    text. *)
Theorem added_property_is_found
    (self : System) (data : PropertyData)
    (t : PropertyType) (s : PropertyStatus) :
  PropertyType_call (pd_property_type data) = Return t ->
  PropertyStatus_call (pd_status data) = Return s ->
  let o := add_property self data in
  let id := "PROP" ++ format_04d (length (properties self) + 1) in
  List.In (new_property id t s data)
    (search_properties (final o)
       [("property_id", VStr id); ("city", VStr (pd_city data));
        ("address", VStr (pd_address data));
        ("property_type", VStr (pd_property_type data))]).
Proof.
  intros Ht Hs. cbv zeta.
  rewrite (add_property_accepted self data t s Ht Hs). simpl.
  unfold search_properties. apply List.filter_In. split.
  - simpl. apply (Dict_get_In_values _ _ _ (Dict_get_setitem_eq _ _ _)).
  - apply enum_call_inv in Ht. rewrite Ht.
    cbn [criteria_match].
    set (id := "PROP" ++ format_04d (length (properties self) + 1)).
    rewrite criterion_holds_own_text with (attr := VStr id) by reflexivity.
    rewrite criterion_holds_own_text with (attr := VStr (pd_city data))
      by reflexivity.
    rewrite criterion_holds_own_text with (attr := VStr (pd_address data))
      by reflexivity.
    now rewrite criterion_holds_own_text with (attr := VPropertyType t)
      by reflexivity.
Qed.

Lemma added_property_is_found_witness :
  List.In (new_property "PROP0003" RESIDENTIAL FOR_SALE sample_data)
    (search_properties (final (add_property sample_system sample_data))
       [("property_id", VStr "PROP0003"); ("city", VStr "New York");
        ("address", VStr "123 Main St");
        ("property_type", VStr "Residential")]).
Proof.
  apply (added_property_is_found sample_system sample_data
           RESIDENTIAL FOR_SALE); reflexivity.
Defined.

(* ===================================================================== *)
(** ** The five that are kept *)

Lemma for_each_consider_complete (c : Client) (props : list Property) :
  forall acc0 acc,
    for_each (consider c) props acc0 = Return acc ->
    (forall e, List.In e acc0 -> List.In e acc)
    /\ (forall prop score,
          List.In prop props ->
          scored_for c prop = true ->
          score_property (preferences c) prop = Return score ->
          40 <= score ->
          List.In (prop, score) acc).
Proof.
  induction props as [| p props IH]; intros acc0 acc; simpl.
  - intros [= <-]. split; [auto | intros ? ? []].
  - destruct (consider c acc0 p) as [acc1 |] eqn:Hstep; simpl;
      [| discriminate].
    intros Hrest. destruct (IH _ _ Hrest) as [Hkeep Hall].
    assert (forall e, List.In e acc0 -> List.In e acc1) as Hkeep1.
    { destruct (consider_cases _ _ _ _ Hstep) as [-> | (s & -> & _)];
        [auto |].
      intros e He. apply List.in_or_app. now left. }
    split; [auto |].
    intros prop score [<- | Hin] Hsc Hscore Hmin; [| eauto].
    apply Hkeep. unfold consider, scored_for in *.
    apply andb_true_iff in Hsc as [Ha Hf].
    rewrite Ha, Hf, Hscore in Hstep. simpl in Hstep.
    destruct (Z.leb_spec 40 score); [| lia].
    injection Hstep as <-. apply List.in_or_app. right. now left.
Qed.

Lemma descending_split {A} (key : A -> Z) (n : nat) (l : list A) :
  descending key l ->
  forall e e', List.In e (skipn n l) -> List.In e' (firstn n l) ->
               key e <= key e'.
Proof.
  unfold descending. intros H. revert n.
  induction H as [| x l Hl IH Hx]; intros n e e'.
  - destruct n; simpl; tauto.
  - destruct n as [| n]; simpl; [tauto |].
    intros He [<- | He'].
    + rewrite List.Forall_forall in Hx. apply Hx.
      rewrite <- (firstn_skipn n l). apply List.in_or_app. now right.
    + now apply (IH n).
Qed.

(** X23: the pairs kept for a buyer are the best of those that qualify.
    Every available property of the collection that is within 110% of the
    budget and scores at least 40 is collected; the list returned holds
    five of the collected pairs, or all of them when there are fewer; and
    no pair left out scores more than a pair returned. *)
Theorem kept_matches_are_the_best
    (self : System) (matches : Dict.t (list scored))
    (cid : string) (lst : list scored) :
  match_clients_to_properties self = Return matches ->
  List.In (cid, lst) matches ->
  exists c suitable rest,
    List.In c (Dict.values (clients self))
    /\ client_id c = cid
    /\ (forall prop score,
          List.In prop (Dict.values (properties self)) ->
          scored_for c prop = true ->
          score_property (preferences c) prop = Return score ->
          40 <= score ->
          List.In (prop, score) suitable)
    /\ Permutation suitable (lst ++ rest)
    /\ length lst = Nat.min 5 (length suitable)
    /\ (forall e e', List.In e rest -> List.In e' lst ->
                     match_score e <= match_score e').
Proof.
  intros Hret Hin.
  destruct (match_entries _ _ _ _ Hret Hin)
    as (c & Hc & Hid & Hbuyer & suitable & Hs & ->).
  exists c, suitable, (skipn 5 (sort_desc match_score suitable)).
  split; [exact Hc |]. split; [exact Hid |]. split; [| split; [| split]].
  - apply (for_each_consider_complete _ _ _ _ Hs).
  - unfold top_matches. rewrite firstn_skipn.
    symmetry. apply sort_desc_perm.
  - unfold top_matches. rewrite List.length_firstn.
    now rewrite (Permutation_length (sort_desc_perm match_score suitable)).
  - apply descending_split, sort_desc_descending.
Qed.

Lemma kept_matches_are_the_best_witness :
  exists c suitable rest,
    List.In c (Dict.values (clients busy_system))
    /\ client_id c = "CLI0001"
    /\ (forall prop score,
          List.In prop (Dict.values (properties busy_system)) ->
          scored_for c prop = true ->
          score_property (preferences c) prop = Return score ->
          40 <= score ->
          List.In (prop, score) suitable)
    /\ Permutation suitable
         ([(listing "PROP0002" "New York" 3, 75);
           (listing "PROP0005" "New York" 5, 75);
           (listing "PROP0001" "Boston" 3, 55);
           (listing "PROP0003" "Boston" 4, 55);
           (listing "PROP0006" "Boston" 3, 55)] ++ rest)
    /\ length [(listing "PROP0002" "New York" 3, 75);
               (listing "PROP0005" "New York" 5, 75);
               (listing "PROP0001" "Boston" 3, 55);
               (listing "PROP0003" "Boston" 4, 55);
               (listing "PROP0006" "Boston" 3, 55)]
       = Nat.min 5 (length suitable)
    /\ (forall e e', List.In e rest ->
          List.In e' [(listing "PROP0002" "New York" 3, 75);
                      (listing "PROP0005" "New York" 5, 75);
                      (listing "PROP0001" "Boston" 3, 55);
                      (listing "PROP0003" "Boston" 4, 55);
                      (listing "PROP0006" "Boston" 3, 55)] ->
          match_score e <= match_score e').
Proof.
  apply (kept_matches_are_the_best busy_system busy_matches "CLI0001").
  - vm_compute. reflexivity.
  - simpl. now left.
Defined.

(* ===================================================================== *)
(** ** Looking the matched clients up *)

Lemma Dict_In_get {V} (k : string) (v : V) (d : Dict.t V) :
  List.In (k, v) d -> exists v', Dict.get k d = Some v'.
Proof.
  induction d as [| [k' v'] d IH]; simpl; [tauto |].
  destruct (String.eqb_spec k k') as [-> | Hne]; [eauto |].
  intros [[= -> ->] | H]; [contradiction | auto].
Qed.

(** X24: when every client is stored under its own identifier, as
    [load_data] and [add_client] store them, every key of the returned
    mapping is a key of the client collection, so the lookup
    [self.system.clients[client_id]] of [client_matching_interactive]
    cannot raise [KeyError]. *)
Theorem matched_clients_can_be_looked_up
    (self : System) (matches : Dict.t (list scored))
    (cid : string) (lst : list scored) :
  (forall k c, List.In (k, c) (clients self) -> k = client_id c) ->
  match_clients_to_properties self = Return matches ->
  List.In (cid, lst) matches ->
  returns (Dict.getitem cid (clients self)).
Proof.
  intros Hown Hret Hin.
  destruct (match_entries _ _ _ _ Hret Hin) as (c & Hc & Hid & _).
  unfold Dict.values in Hc. apply List.in_map_iff in Hc as ([k c'] & Hc' & Hkc).
  simpl in Hc'. subst c'. pose proof (Hown _ _ Hkc) as Hk.
  destruct (Dict_In_get _ _ _ Hkc) as [v Hv].
  unfold returns, Dict.getitem. rewrite <- Hid, <- Hk, Hv. eauto.
Qed.

Lemma matched_clients_can_be_looked_up_witness :
  returns (Dict.getitem "CLI0001" (clients sample_system)).
Proof.
  apply (matched_clients_can_be_looked_up sample_system
           [("CLI0001", [(sample_property_1, 75)])]
           "CLI0001" [(sample_property_1, 75)]).
  - intros k c [[= <- <-] | []]. reflexivity.
  - vm_compute. reflexivity.
  - simpl. now left.
Defined.

(* ===================================================================== *)
(** ** [calculate_property_value] *)

Section ValuationFacts.
Variable float_sum : list float -> float.

Lemma comp_prices_missing (comps : list (option float)) :
  List.In None comps -> comp_prices comps = Raise KeyError.
Proof.
  induction comps as [| [p |] comps IH]; simpl.
  - tauto.
  - intros [H | H]; [discriminate | now rewrite IH].
  - reflexivity.
Qed.

(** X25: without comparables the value is the property's own [price]
    entry, or the int 0 when it has none, and the features play no role;
    with comparables, one of them without a [price] entry is a
    [KeyError], whatever the property is. *)
Theorem valuation_edge_cases
    (property_data : ValuationData) (comps : list (option float)) :
  calculate_property_value float_sum property_data []
  = Return (match vd_price property_data with
            | Some p => NFloat p
            | None => NInt 0
            end)
  /\ (List.In None comps ->
      calculate_property_value float_sum property_data comps
      = Raise KeyError).
Proof.
  split; [reflexivity |].
  intros Hin. unfold calculate_property_value.
  destruct comps as [| c comps]; [destruct Hin |].
  now rewrite (comp_prices_missing _ Hin).
Qed.

Lemma for_each_ext {A S} (f g : S -> A -> pyresult S) (xs : list A) :
  (forall acc x, List.In x xs -> f acc x = g acc x) ->
  forall acc, for_each f xs acc = for_each g xs acc.
Proof.
  induction xs as [| x xs IH]; intros Hext acc; simpl; [reflexivity |].
  rewrite (Hext acc x (or_introl eq_refl)).
  destruct (g acc x) as [acc' |]; simpl; [| reflexivity].
  apply IH. intros a y Hy. apply Hext. now right.
Qed.

Lemma existsb_eqb_In (x : string) (l : list string) :
  existsb (String.eqb x) l = true <-> List.In x l.
Proof.
  rewrite List.existsb_exists. split.
  - intros (y & Hy & E). apply String.eqb_eq in E. now subst.
  - intros H. exists x. split; [exact H | apply String.eqb_refl].
Qed.

(** X26: the value depends on the features only through which of Garage,
    Pool and Renovated are among them: two properties with the same price
    entry that agree on these three get the same value from the same
    comparables, whatever else they list and however often. *)
Theorem valuation_reads_three_features
    (data data' : ValuationData) (comps : list (option float)) :
  vd_price data = vd_price data' ->
  (forall feature, List.In feature base_features ->
     (List.In feature (features_of data)
      <-> List.In feature (features_of data'))) ->
  calculate_property_value float_sum data comps
  = calculate_property_value float_sum data' comps.
Proof.
  intros Hprice Hsame. unfold calculate_property_value.
  destruct comps as [| c comps]; [unfold own_price; now rewrite Hprice |].
  destruct (comp_prices (c :: comps)) as [prices |]; [| reflexivity].
  cbn [bind].
  destruct (float_truediv_int _ _) as [avg |]; [| reflexivity].
  cbn [bind].
  rewrite (for_each_ext (adjust data) (adjust data') base_features);
    [reflexivity |].
  intros acc feature Hf. unfold adjust, own_price. rewrite Hprice.
  fold (features_of data). fold (features_of data').
  destruct (existsb (String.eqb feature) (features_of data)) eqn:E.
  - apply existsb_eqb_In, (Hsame feature Hf), existsb_eqb_In in E.
    now rewrite E.
  - destruct (existsb (String.eqb feature) (features_of data')) eqn:E';
      [| reflexivity].
    apply existsb_eqb_In, (Hsame feature Hf), existsb_eqb_In in E'.
    congruence.
Qed.

(** X27: a property with none of Garage, Pool and Renovated is valued at
    the average of the comparables' prices, the float sum divided by their
    number: its own price plays no role. *)
Theorem valuation_without_features_is_the_average
    (data : ValuationData) (comps : list (option float))
    (prices : list float) (n : float) :
  (forall feature, List.In feature base_features ->
                   ~ List.In feature (features_of data)) ->
  comps <> [] ->
  comp_prices comps = Return prices ->
  float_of_int (Z.of_nat (length comps)) = Return n ->
  calculate_property_value float_sum data comps
  = Return (NFloat (float_sum prices / n + 0)%float).
Proof.
  intros Hnone Hne Hprices Hn. unfold calculate_property_value.
  destruct comps as [| c comps]; [contradiction |].
  rewrite Hprices. cbn [bind]. unfold float_truediv_int. rewrite Hn.
  cbn [bind].
  destruct (Z.eqb_spec (Z.of_nat (length (c :: comps))) 0) as [E | _];
    [simpl in E; lia |].
  assert (for_each (adjust data) base_features (NInt 0) = Return (NInt 0))
    as ->.
  { unfold base_features. cbn [for_each]. unfold adjust.
    fold (features_of data).
    repeat match goal with
           | |- context [existsb (String.eqb ?f) (features_of data)] =>
               let E := fresh "E" in
               destruct (existsb (String.eqb f) (features_of data)) eqn:E;
               [apply existsb_eqb_In in E; exfalso;
                apply (Hnone f); [simpl; tauto | exact E] |];
               cbn [bind]
           end.
    reflexivity. }
  reflexivity.
Qed.
End ValuationFacts.

Lemma valuation_edge_cases_witness :
  calculate_property_value sum_left_to_right plain_house []
  = Return (NFloat 500000)
  /\ (List.In None [Some 400000%float; None] ->
      calculate_property_value sum_left_to_right plain_house
        [Some 400000%float; None]
      = Raise KeyError).
Proof. apply valuation_edge_cases. Defined.

Lemma valuation_reads_three_features_witness :
  calculate_property_value sum_left_to_right house_with_pool
    [Some 400000%float; Some 450000%float]
  = calculate_property_value sum_left_to_right house_with_pool_only
      [Some 400000%float; Some 450000%float].
Proof.
  apply valuation_reads_three_features; [reflexivity |].
  intros feature [<- | [<- | [<- | []]]]; simpl; intuition discriminate.
Defined.

Lemma valuation_without_features_is_the_average_witness :
  calculate_property_value sum_left_to_right plain_house
    [Some 400000%float; Some 450000%float]
  = Return (NFloat (sum_left_to_right [400000; 450000] / 2 + 0)%float).
Proof.
  apply valuation_without_features_is_the_average.
  - intros feature [<- | [<- | [<- | []]]] [H | []]; discriminate.
  - discriminate.
  - reflexivity.
  - reflexivity.
Defined.

Example pool_adds_five_percent :
  calculate_property_value sum_left_to_right house_with_pool_only
    [Some 400000%float; Some 450000%float]
  = Return (NFloat 450000).
Proof. vm_compute. reflexivity. Qed.
